(** * OpenAI status monitor: webhook listener (app.py) and RSS poller
      (status_monitor.py)

    A shallow embedding of the two entry points and of the routines they
    share in shape: the keyword classifier [detect_product], the webhook
    handler [handle_openai_status] with [extract_latest_update] and
    [format_log_line], the flat-file store [log_to_json] and the polling
    loop [track_status].

    Conventions.
    - A Python [str] is a [string]; [str.lower] and [str.capitalize] are
      modelled on ASCII letters, every other byte is left as it is.
    - A decoded JSON document is a [json] value; Python's truthiness,
      [dict.get], indexing and method lookup on such values are written out
      together with the exceptions they raise.
    - Library calls whose result the code only passes on (dateutil's
      [parser.parse], [strftime], the clock, [repr] of a non-string value
      inside an f-string) are parameters of the definitions that use them.
    - [time.sleep] is not modelled: a poll cycle is one step of the loop. *)

From Stdlib Require Import Bool Arith ZArith Lia List Ascii String Sorted.
From Stdlib Require Import SpecFloat.
Import ListNotations.

Local Open Scope list_scope.
Local Open Scope string_scope.

(** ** Python strings *)

Module PyStr.

(** [c.lower()] on one ASCII character. *)
Definition lower_ascii (c : ascii) : ascii :=
  let n := nat_of_ascii c in
  if (65 <=? n)%nat && (n <=? 90)%nat then ascii_of_nat (n + 32) else c.

(** [c.upper()] on one ASCII character. *)
Definition upper_ascii (c : ascii) : ascii :=
  let n := nat_of_ascii c in
  if (97 <=? n)%nat && (n <=? 122)%nat then ascii_of_nat (n - 32) else c.

(** [s.lower()] *)
Fixpoint lower (s : string) : string :=
  match s with
  | EmptyString => EmptyString
  | String c s' => String (lower_ascii c) (lower s')
  end.

(** [s.capitalize()]: first character upper-cased, the rest lower-cased. *)
Definition capitalize (s : string) : string :=
  match s with
  | EmptyString => EmptyString
  | String c s' => String (upper_ascii c) (lower s')
  end.

(** [text.startswith(kw)] *)
Fixpoint startswith (kw text : string) : bool :=
  match kw, text with
  | EmptyString, _ => true
  | String _ _, EmptyString => false
  | String a kw', String b text' => Ascii.eqb a b && startswith kw' text'
  end.

(** [kw in text]: [kw] occurs as a contiguous substring of [text]. *)
Fixpoint contains (kw text : string) : bool :=
  startswith kw text ||
  match text with
  | EmptyString => false
  | String _ text' => contains kw text'
  end.

(** ["-" * n] and the like. *)
Fixpoint repeat_char (c : ascii) (n : nat) : string :=
  match n with
  | O => EmptyString
  | S n' => String c (repeat_char c n')
  end.

(** Truthiness of a [str]: non-empty. *)
Definition nonempty (s : string) : bool :=
  match s with EmptyString => false | String _ _ => true end.

End PyStr.

(** ** The keyword classifier *)

Module Classifier.

(** The Keyword Table: a dict literal, iterated in insertion order. *)
Definition keyword_table := list (string * list string).

(** [sum(1 for kw in keywords if kw in text_lower)] *)
Definition score (keywords : list string) (text_lower : string) : nat :=
  List.length (List.filter (fun kw => PyStr.contains kw text_lower) keywords).

(** The body of the [for] loop of [detect_product], run over the remaining
    items of the table with the current [best_match] and [best_score]. *)
Fixpoint scan (items : keyword_table) (text_lower : string)
    (best_match : string) (best_score : nat) : string :=
  match items with
  | [] => best_match
  | (product_name, keywords) :: rest =>
      let s := score keywords text_lower in
      if (best_score <? s)%nat
      then scan rest text_lower product_name s
      else scan rest text_lower best_match best_score
  end.

(** [detect_product] with the table and the default label made explicit. *)
Definition detect_product_with (default : string) (table : keyword_table)
    (text : string) : string :=
  scan table (PyStr.lower text) default 0.

End Classifier.

(** ** app.py: table and classifier *)

Module App.

Definition PRODUCT_KEYWORDS : Classifier.keyword_table :=
  [ ("OpenAI API - Chat Completions",
       ["chat completions"; "gpt-4o"; "gpt-4.1"; "gpt-4"; "gpt-3.5"]);
    ("OpenAI API - Responses",
       ["responses api"; "responses endpoint"; "response api"]);
    ("OpenAI API - Assistants",
       ["assistants api"; "assistant api"]);
    ("OpenAI API - Batch",
       ["batch api"; "batch jobs"; "batch endpoint"]);
    ("OpenAI API - Realtime",
       ["realtime api"; "webrtc"; "realtime connections"]);
    ("OpenAI API - Embeddings",
       ["embeddings api"; "embedding api"; "embeddings endpoint"]);
    ("OpenAI API - Moderation",
       ["moderation api"; "moderations endpoint"]);
    ("OpenAI API - Vector Stores",
       ["vector stores api"; "vector store"]);
    ("OpenAI API - Fine-tuning",
       ["fine-tuning"; "fine tuning"]);
    ("OpenAI API - Images",
       ["images api"; "image generation"; "image api"; "dall-e"]) ].

Definition default_label : string := "OpenAI Platform / Multiple services".

Definition detect_product (text : string) : string :=
  Classifier.detect_product_with default_label PRODUCT_KEYWORDS text.

End App.

(** ** status_monitor.py: table and classifier *)

Module StatusMonitor.

Definition PRODUCT_KEYWORDS : Classifier.keyword_table :=
  [ ("Chat Completions API",
       ["chat completions"; "gpt-4"; "gpt-4o"; "gpt-3.5"; "chatgpt"]);
    ("Responses API", ["responses api"; "response endpoint"]);
    ("Assistants API", ["assistants api"; "assistant"]);
    ("Batch API", ["batch api"; "batch job"]);
    ("Realtime API", ["realtime api"; "realtime"]);
    ("Embeddings API", ["embedding"; "embeddings"]);
    ("Moderation API", ["moderation"; "moderate"]);
    ("Vector Stores API", ["vector store"; "vector database"]);
    ("Fine-tuning API", ["fine-tune"; "fine tuning"]);
    ("Image Generation API", ["image"; "dall-e"]) ].

Definition default_label : string := "OpenAI Platform / Multiple Services".

Definition detect_product (text : string) : string :=
  Classifier.detect_product_with default_label PRODUCT_KEYWORDS text.

End StatusMonitor.

(** ** Decoded JSON values and the Python operations the code applies *)

#[warnings="-register-all"]
Inductive json : Type :=
| JNull
| JBool (b : bool)
| JInt (z : Z)
| JFloat (f : spec_float)
| JStr (s : string)
| JArr (items : list json)
| JObj (fields : list (string * json)).

(** The exceptions the two programs can raise. *)
Inductive exc : Type :=
| HTTPException (status_code : Z) (detail : string)
| AttributeError
| TypeError
| KeyError
| IndexError
| ParserError
| JSONDecodeError
| UnicodeDecodeError
| FileNotFoundError.

Inductive result (A : Type) : Type :=
| Ok (a : A)
| Raise (e : exc).
Arguments Ok {A} a.
Arguments Raise {A} e.

(** State and exceptions: a computation reads and updates a state [S]
    (an output stream, or the poller's world) and returns or raises. *)
Definition M (S A : Type) : Type := S -> S * result A.

Definition ret {S A} (a : A) : M S A := fun s => (s, Ok a).
Definition raise {S A} (e : exc) : M S A := fun s => (s, Raise e).
Definition bind {S A B} (m : M S A) (k : A -> M S B) : M S B :=
  fun s => match m s with
           | (s', Ok a) => k a s'
           | (s', Raise e) => (s', Raise e)
           end.
Definition lift {S A} (r : result A) : M S A := fun s => (s, r).

Declare Scope py_scope.
Delimit Scope py_scope with py.
Notation "x <- m ;; k" := (bind m (fun x => k))
  (at level 100, m at next level, right associativity) : py_scope.
Notation "m ;;; k" := (bind m (fun _ => k))
  (at level 100, right associativity) : py_scope.

Module Py.

(** [bool(v)] *)
Definition truthy (v : json) : bool :=
  match v with
  | JNull => false
  | JBool b => b
  | JInt z => negb (z =? 0)%Z
  | JFloat (S754_zero _) => false
  | JFloat _ => true
  | JStr s => PyStr.nonempty s
  | JArr [] => false
  | JArr (_ :: _) => true
  | JObj [] => false
  | JObj (_ :: _) => true
  end.

Fixpoint dict_lookup (k : string) (d : list (string * json)) : option json :=
  match d with
  | [] => None
  | (k', v) :: d' => if String.eqb k k' then Some v else dict_lookup k d'
  end.

(** The value under [k] in a dict, [default] when the key is missing. *)
Definition field_or (d : list (string * json)) (k : string) (default : json)
    : json :=
  match dict_lookup k d with Some x => x | None => default end.

(** [v.get(k, default)]; only a dict has the method. *)
Definition get (v : json) (k : string) (default : json) : result json :=
  match v with
  | JObj d => Ok (field_or d k default)
  | _ => Raise AttributeError
  end.

Fixpoint last_char (s : string) : option ascii :=
  match s with
  | EmptyString => None
  | String c EmptyString => Some c
  | String _ s' => last_char s'
  end.

(** [v[-1]] *)
Definition index_last (v : json) : result json :=
  match v with
  | JArr [] => Raise IndexError
  | JArr (x :: l) => Ok (List.last l x)
  | JStr s => match last_char s with
              | Some c => Ok (JStr (String c EmptyString))
              | None => Raise IndexError
              end
  | JObj _ => Raise KeyError
  | _ => Raise TypeError
  end.

(** [v.capitalize()]; only a str has the method. *)
Definition capitalize (v : json) : result string :=
  match v with
  | JStr s => Ok (PyStr.capitalize s)
  | _ => Raise AttributeError
  end.

(** [v.append(x)]; only a list has the method. *)
Definition append (v x : json) : result json :=
  match v with
  | JArr l => Ok (JArr (l ++ [x])%list)
  | _ => Raise AttributeError
  end.

End Py.

(** Points in time as the programs compare them: an instant on the time
    line, counted in microseconds. The publish times of a feed are taken to
    be all of one kind, offset-aware as the feed's are, so that comparing
    two of them compares their instants; comparing an offset-naive with an
    offset-aware time, which raises TypeError, is outside the model. *)
Definition datetime : Type := Z.

Definition newline : string := String (ascii_of_nat 10) EmptyString.
Definition rule80 : string := PyStr.repeat_char "-"%char 80.

(** ** app.py: the webhook receiver *)

Module Webhook.

Local Open Scope py_scope.

Section Handler.

(** [str(v)] of a decoded value that is not a str. *)
Variable repr_nonstr : json -> string.
(** [dt.strftime("%Y-%m-%d %H:%M:%S")] *)
Variable strftime : datetime -> string.

(** A value interpolated in an f-string. *)
Definition fmt (v : json) : string :=
  match v with
  | JStr s => s
  | _ => repr_nonstr v
  end.

(** [now] is the reading of [datetime.utcnow()]. *)
Definition format_log_line (now : datetime) (product : string)
    (status_description latest_body : json) : string :=
  let ts := strftime now in
  "[" ++ ts ++ "] Product: " ++ product ++ newline ++
  "Status: " ++ fmt status_description ++ " - " ++ fmt latest_body ++ newline ++
  rule80.

Definition fallback_status (status : json) : json :=
  JStr ("Incident status: " ++ fmt status).

Definition extract_latest_update (incident : json) : result json :=
  match Py.get incident "incident_updates" JNull with
  | Raise e => Raise e
  | Ok got =>
      let updates := if Py.truthy got then got else JArr [] in
      if negb (Py.truthy updates) then
        match Py.get incident "status" (JStr "unknown") with
        | Raise e => Raise e
        | Ok st => Ok (fallback_status st)
        end
      else
        match Py.index_last updates with
        | Raise e => Raise e
        | Ok latest =>
            match Py.get latest "body" JNull with
            | Raise e => Raise e
            | Ok body =>
                if Py.truthy body then Ok body
                else match Py.get latest "status" (JStr "unknown") with
                     | Raise e => Raise e
                     | Ok st => Ok (fallback_status st)
                     end
            end
        end
  end.

(** The expression bound to [status_description] in the handler:
    [page_status_desc or (impact.capitalize() + " impact" if impact else None)
     or incident_status.capitalize()]. *)
Definition status_description (page_status_desc impact incident_status : json)
    : result json :=
  if Py.truthy page_status_desc then Ok page_status_desc
  else
    let middle :=
      if Py.truthy impact then
        match Py.capitalize impact with
        | Ok s => Ok (JStr (s ++ " impact"))
        | Raise e => Raise e
        end
      else Ok JNull in
    match middle with
    | Raise e => Raise e
    | Ok m =>
        if Py.truthy m then Ok m
        else match Py.capitalize incident_status with
             | Ok s => Ok (JStr s)
             | Raise e => Raise e
             end
    end.

(** The log stream written by [logger.info]. *)
Definition log_stream : Type := list string.

Definition logger_info (line : string) : M log_stream unit :=
  fun out => ((out ++ [line])%list, Ok tt).

(** [request_json] is the outcome of [await request.json()]: [None] when
    decoding the body raises. *)
Definition handle_openai_status (now : datetime) (request_json : option json)
    : M log_stream json :=
  payload <- match request_json with
             | Some p => ret p
             | None => raise (HTTPException 400 "Invalid JSON")
             end ;;
  incident <- lift (Py.get payload "incident" JNull) ;;
  page <- lift (Py.get payload "page" (JObj [])) ;;
  if negb (Py.truthy incident) then
    raise (HTTPException 400 "No incident object in payload")
  else
    incident_name <- lift (Py.get incident "name" (JStr "Unknown incident")) ;;
    incident_status <- lift (Py.get incident "status" (JStr "unknown")) ;;
    page_status_desc <- lift (Py.get page "status_description" JNull) ;;
    impact <- lift (Py.get incident "impact" JNull) ;;
    latest_body <- lift (extract_latest_update incident) ;;
    let combined_text := fmt incident_name ++ " " ++ fmt latest_body in
    let product := App.detect_product combined_text in
    sd <- lift (status_description page_status_desc impact incident_status) ;;
    let log_line := format_log_line now product sd latest_body in
    logger_info log_line ;;;
    ret (JObj [("ok", JBool true)]).

End Handler.

(** What the caller of the endpoint sees: the framework turns a returned
    value into a 200 response, an [HTTPException] into a response with its
    status code, and any other exception into a 500. *)
Record http_response : Type := { status : Z; content : json }.

Definition respond (r : result json) : http_response :=
  match r with
  | Ok v => {| status := 200; content := v |}
  | Raise (HTTPException code detail) =>
      {| status := code; content := JObj [("detail", JStr detail)] |}
  | Raise _ => {| status := 500; content := JStr "Internal Server Error" |}
  end.

(** One POST to the endpoint, starting with an empty log stream: the
    response and the lines logged while handling it. *)
Definition post (repr_nonstr : json -> string) (strftime : datetime -> string)
    (now : datetime) (request_json : option json)
    : http_response * log_stream :=
  let '(out, r) := handle_openai_status repr_nonstr strftime now request_json [] in
  (respond r, out).

End Webhook.

(** ** status_monitor.py: the log store and the feed poller *)

Module Poller.

Local Open Scope py_scope.

(** The file at [LOG_FILE]: absent; holding a JSON document; holding text
    that is not JSON, which [json.load] rejects with JSONDecodeError; or
    holding bytes that are not text in the encoding the file is opened
    with, on which reading raises UnicodeDecodeError. *)
Inductive file : Type :=
| Absent
| Holds (doc : json)
| Garbled
| Undecodable.

(** One feed entry as feedparser exposes it. *)
Record entry : Type := {
  title : string;
  summary : string;
  published : string
}.

(** The process state of the poller and what it writes to. *)
Record world : Type := {
  last_seen : option datetime;
  stdout : list string;
  log_file : file
}.

Definition initial (f : file) : world :=
  {| last_seen := None; stdout := []; log_file := f |}.

Definition with_stdout (w : world) (out : list string) : world :=
  {| last_seen := last_seen w; stdout := out; log_file := log_file w |}.

Definition with_log (w : world) (f : file) : world :=
  {| last_seen := last_seen w; stdout := stdout w; log_file := f |}.

Definition with_last_seen (w : world) (t : datetime) : world :=
  {| last_seen := Some t; stdout := stdout w; log_file := log_file w |}.

Definition print (line : string) : M world unit :=
  fun w => (with_stdout w (stdout w ++ [line])%list, Ok tt).

(** [json.dump(doc, f)] on the log file, opened for writing. *)
Definition write_log (doc : json) : M world unit :=
  fun w => (with_log w (Holds doc), Ok tt).

(** [json.load(f)] on the log file, opened for reading. *)
Definition load_log : M world json :=
  fun w => match log_file w with
           | Holds doc => (w, Ok doc)
           | Garbled => (w, Raise JSONDecodeError)
           | Undecodable => (w, Raise UnicodeDecodeError)
           | Absent => (w, Raise FileNotFoundError)
           end.

(** [os.path.exists(LOG_FILE)] *)
Definition exists_log : M world bool :=
  fun w => (w, Ok match log_file w with Absent => false | _ => true end).

Definition get_last_seen : M world (option datetime) :=
  fun w => (w, Ok (last_seen w)).

Definition set_last_seen (t : datetime) : M world unit :=
  fun w => (with_last_seen w t, Ok tt).

(** [os.makedirs("logs", exist_ok=True)] leaves the file as it is and is
    left out. *)
Definition log_to_json (data : json) : M world unit :=
  present <- exists_log ;;
  (if negb present then write_log (JArr []) else ret tt) ;;;
  existing <- load_log ;;
  updated <- lift (Py.append existing data) ;;
  write_log updated.

(** The dict built in [print_incident]. *)
Definition log_data (human_time product event status : string) : json :=
  JObj [ ("timestamp", JStr human_time);
         ("product", JStr product);
         ("event", JStr event);
         ("status", JStr status) ].

Section Loop.

(** dateutil's [parser.parse]: [None] when it raises. *)
Variable parse : string -> option datetime.
(** [dt.strftime("%Y-%m-%d %H:%M:%S")] *)
Variable strftime : datetime -> string.

Definition parser_parse (s : string) : M world datetime :=
  match parse s with
  | Some t => ret t
  | None => raise ParserError
  end.

Definition format_timestamp (dt : datetime) : string := strftime dt.

Definition print_incident (e : entry) : M world unit :=
  timestamp <- parser_parse (published e) ;;
  let human_time := format_timestamp timestamp in
  let product := StatusMonitor.detect_product (title e ++ " " ++ summary e) in
  print ("[" ++ human_time ++ "] 🔔 NEW INCIDENT DETECTED") ;;;
  print ("Product: " ++ product) ;;;
  print ("Event: " ++ title e) ;;;
  print ("Status: " ++ summary e) ;;;
  print rule80 ;;;
  log_to_json (log_data human_time product (title e) (summary e)).

(** The record [print_incident] stores for an entry published at [t]. *)
Definition incident_record (e : entry) (t : datetime) : json :=
  log_data (format_timestamp t)
    (StatusMonitor.detect_product (title e ++ " " ++ summary e))
    (title e) (summary e).

(** The publish time of [feed.entries[0]], when there is one and it
    parses. *)
Definition newest_time (entries : list entry) : option datetime :=
  match entries with
  | [] => None
  | newest :: _ => parse (published newest)
  end.

(** One pass through the body of [while True], on the entries the fetch
    returned. *)
Definition poll_cycle (entries : list entry) : M world unit :=
  match entries with
  | [] => print "⚠ Feed empty, retrying..."
  | newest :: _ =>
      timestamp <- parser_parse (published newest) ;;
      seen <- get_last_seen ;;
      match seen with
      | None =>
          set_last_seen timestamp ;;;
          print ("Initialized. Waiting for future updates..." ++ newline)
      | Some t =>
          if (t <? timestamp)%Z then
            print_incident newest ;;;
            set_last_seen timestamp
          else ret tt
      end
  end.

(** The loop over the successive fetch results; an exception ends it. *)
Fixpoint poll_cycles (fetches : list (list entry)) : M world unit :=
  match fetches with
  | [] => ret tt
  | entries :: rest => poll_cycle entries ;;; poll_cycles rest
  end.

Definition track_status (fetches : list (list entry)) : M world unit :=
  print "🔍 Monitoring OpenAI Status via RSS..." ;;;
  print "Logs at: logs/openai_status_log.json" ;;;
  print ("Press Ctrl+C to stop" ++ newline) ;;;
  poll_cycles fetches.

End Loop.

(** The records a log document holds, read back field by field. *)
Record log_record : Type := {
  r_timestamp : string;
  r_product : string;
  r_event : string;
  r_status : string
}.

Definition record_json (r : log_record) : json :=
  log_data (r_timestamp r) (r_product r) (r_event r) (r_status r).

Definition read_record (j : json) : option log_record :=
  match Py.get j "timestamp" JNull, Py.get j "product" JNull,
        Py.get j "event" JNull, Py.get j "status" JNull with
  | Ok (JStr t), Ok (JStr p), Ok (JStr e), Ok (JStr s) =>
      Some {| r_timestamp := t; r_product := p; r_event := e; r_status := s |}
  | _, _, _, _ => None
  end.

Fixpoint read_records (l : list json) : option (list log_record) :=
  match l with
  | [] => Some []
  | j :: l' =>
      match read_record j, read_records l' with
      | Some r, Some rs => Some (r :: rs)
      | _, _ => None
      end
  end.

(** The sequence the log file holds; none when there is no file or no
    sequence in it. *)
Definition stored (f : file) : list json :=
  match f with
  | Holds (JArr l) => l
  | _ => []
  end.

(** Reading the log file back. *)
Definition read_log (f : file) : option (list log_record) :=
  match f with
  | Holds (JArr l) => read_records l
  | _ => None
  end.

(** Order on the values [last_seen] takes: [None] before everything. *)
Definition seen_le (a b : option datetime) : Prop :=
  match a, b with
  | None, _ => True
  | Some x, Some y => (x <= y)%Z
  | Some _, None => False
  end.

(** Appending the records of a list one after the other. *)
Fixpoint append_all (rs : list log_record) : M world unit :=
  match rs with
  | [] => ret tt
  | r :: rs' => log_to_json (record_json r) ;;; append_all rs'
  end.

End Poller.

(** ** The documented payload shape, and the resolution order in the
       spec's words *)

Module Shape.

(** A string field of a dict, when it is there and is a string. *)
Definition str_field (d : list (string * json)) (k : string) : option string :=
  match Py.dict_lookup k d with
  | Some (JStr s) => Some s
  | _ => None
  end.

(** The field is missing or holds a string. *)
Definition opt_str (d : list (string * json)) (k : string) : bool :=
  match Py.dict_lookup k d with
  | None => true
  | Some (JStr _) => true
  | Some _ => false
  end.

(** [incident_updates[].{body,status}] *)
Definition update_shape (u : json) : bool :=
  match u with
  | JObj ud => opt_str ud "body" && opt_str ud "status"
  | _ => false
  end.

Definition updates_shape (d : list (string * json)) : bool :=
  match Py.dict_lookup "incident_updates" d with
  | None => true
  | Some (JArr l) => forallb update_shape l
  | Some _ => false
  end.

(** [incident.{name,status,impact,incident_updates}], a non-empty object. *)
Definition incident_shape (v : json) : bool :=
  match v with
  | JObj [] => false
  | JObj d =>
      opt_str d "name" && opt_str d "status" && opt_str d "impact"
      && updates_shape d
  | _ => false
  end.

(** [page.status_description], the page object being optional. *)
Definition page_shape (d : list (string * json)) : bool :=
  match Py.dict_lookup "page" d with
  | None => true
  | Some (JObj pd) => opt_str pd "status_description"
  | Some _ => false
  end.

(** A payload of the provider's incident-update shape. *)
Definition payload_shape (p : json) : bool :=
  match p with
  | JObj d =>
      page_shape d &&
      match Py.dict_lookup "incident" d with
      | Some inc => incident_shape inc
      | None => false
      end
  | _ => false
  end.

(** The fields of the page object of a payload, none when it has no page. *)
Definition page_fields (d : list (string * json)) : list (string * json) :=
  match Py.dict_lookup "page" d with
  | Some (JObj pd) => pd
  | _ => []
  end.

(** The resolution order as the specification words it: the page-level
    description if non-empty, else the capitalized impact followed by
    " impact" if the impact is non-empty, else the capitalized incident
    status, "unknown" standing in for a missing status. *)
Definition first_nonempty_status (page_desc impact status : option string)
    : string :=
  match page_desc with
  | Some (String c s) => String c s
  | _ =>
      match impact with
      | Some (String c s) => PyStr.capitalize (String c s) ++ " impact"
      | _ => PyStr.capitalize
               (match status with Some s => s | None => "unknown" end)
      end
  end.

(** A payload has an incident object when it is an object whose "incident"
    field is an object. *)
Definition has_incident_object (p : json) : bool :=
  match p with
  | JObj d => match Py.dict_lookup "incident" d with
              | Some (JObj _) => true
              | _ => false
              end
  | _ => false
  end.

End Shape.

(** ** Responses and sample inputs *)

Definition bad_request (detail : string) : Webhook.http_response :=
  {| Webhook.status := 400; Webhook.content := JObj [("detail", JStr detail)] |}.

Definition acknowledgment : Webhook.http_response :=
  {| Webhook.status := 200; Webhook.content := JObj [("ok", JBool true)] |}.

(** A payload of the documented shape, used to exercise the statements
    below. *)
Definition sample_payload : json :=
  JObj [ ("page", JObj [("status_description", JStr "")]);
         ("incident",
          JObj [ ("name", JStr "Chat Completions API latency");
                 ("status", JStr "monitoring");
                 ("impact", JStr "major");
                 ("incident_updates",
                  JArr [ JObj [("body", JStr "We are investigating.");
                               ("status", JStr "investigating")];
                         JObj [("body", JStr "Investigating reports of elevated latency in gpt-4o responses");
                               ("status", JStr "monitoring")] ]) ]) ].

Definition sample_repr (v : json) : string := "?".
Definition sample_strftime (t : datetime) : string :=
  if (t =? 1762165800000000)%Z then "2025-11-03 10:30:00"
  else if (t =? 1762167600000000)%Z then "2025-11-03 11:00:00"
  else "2025-11-03 10:00:00".

Definition sample_incident_fields : list (string * json) :=
  [ ("status", JStr "investigating");
    ("incident_updates",
     JArr [ JObj [("body", JStr "We are investigating.")];
            JObj [("body", JStr ""); ("status", JStr "identified")] ]) ].

Definition sample_records : list Poller.log_record :=
  [ {| Poller.r_timestamp := "2025-11-03 10:00:00";
       Poller.r_product := "Chat Completions API";
       Poller.r_event := "Elevated latency";
       Poller.r_status := "Investigating" |};
    {| Poller.r_timestamp := "2025-11-03 10:30:00";
       Poller.r_product := "Batch API";
       Poller.r_event := "Batch job delays";
       Poller.r_status := "Identified" |};
    {| Poller.r_timestamp := "2025-11-03 11:00:00";
       Poller.r_product := "Chat Completions API";
       Poller.r_event := "Elevated latency";
       Poller.r_status := "Resolved" |} ].

(** Three feed entries and a stand-in for the date parser that knows
    their publish strings. *)
Definition sample_parse (s : string) : option datetime :=
  if String.eqb s "Mon, 03 Nov 2025 10:00:00 GMT" then Some 1762164000000000%Z
  else if String.eqb s "Mon, 03 Nov 2025 10:30:00 GMT" then Some 1762165800000000%Z
  else if String.eqb s "Mon, 03 Nov 2025 11:00:00 GMT" then Some 1762167600000000%Z
  else None.

Definition entry1 : Poller.entry :=
  {| Poller.title := "Elevated error rates";
     Poller.summary := "Resolved";
     Poller.published := "Mon, 03 Nov 2025 10:00:00 GMT" |}.

Definition entry2 : Poller.entry :=
  {| Poller.title := "Batch job delays";
     Poller.summary := "Investigating";
     Poller.published := "Mon, 03 Nov 2025 10:30:00 GMT" |}.

Definition entry3 : Poller.entry :=
  {| Poller.title := "Chat Completions API latency";
     Poller.summary := "Investigating reports of elevated latency in gpt-4o responses";
     Poller.published := "Mon, 03 Nov 2025 11:00:00 GMT" |}.

Definition sample_fetches : list (list Poller.entry) :=
  [ [entry1]; [entry2; entry1]; [entry2; entry1]; [entry3; entry2; entry1] ].

(** ** app.py: the health check *)

(** [healthcheck]: the static answer of the GET route. *)
Definition healthcheck : json :=
  JObj [("ok", JBool true); ("message", JStr "OpenAI status monitor is running")].

(** ** Vocabulary for the further properties *)

Definition is_obj (v : json) : bool :=
  match v with JObj _ => true | _ => false end.

Definition is_str (v : json) : bool :=
  match v with JStr _ => true | _ => false end.


Definition is_http (e : exc) : bool :=
  match e with HTTPException _ _ => true | _ => false end.

Definition server_error : Webhook.http_response :=
  {| Webhook.status := 500; Webhook.content := JStr "Internal Server Error" |}.

(** ** The payloads the webhook handler acknowledges *)

Module Accept.

(** The value under "incident_updates" lets the extraction return: it is
    falsy, or a list whose last element is an object. *)
Definition updates_ok (updates : json) : bool :=
  if Py.truthy updates then
    match updates with
    | JArr l => is_obj (List.last l JNull)
    | _ => false
    end
  else true.

(** The three values let the status description be resolved: the page
    description is truthy, or else the value to capitalize is a string. *)
Definition status_ok (page_status_desc impact incident_status : json) : bool :=
  Py.truthy page_status_desc
  || (if Py.truthy impact then is_str impact else is_str incident_status).

(** A valid payload: an object with a non-empty incident object, a page
    that is an object when present, and update and status values as above. *)
Definition accepted (p : json) : bool :=
  match p with
  | JObj d =>
      match Py.field_or d "incident" JNull, Py.field_or d "page" (JObj []) with
      | JObj di, JObj pd =>
          Py.truthy (JObj di)
          && updates_ok (Py.field_or di "incident_updates" JNull)
          && status_ok (Py.field_or pd "status_description" JNull)
               (Py.field_or di "impact" JNull)
               (Py.field_or di "status" (JStr "unknown"))
      | _, _ => false
      end
  | _ => false
  end.

(** The resolution order in the specification's words, on decoded values,
    "non-empty" being Python's truthiness: the page-level description; else
    the capitalized impact followed by " impact"; else the capitalized
    incident status. *)
Definition resolved_status (repr_nonstr : json -> string)
    (page_status_desc impact incident_status : json) : string :=
  if Py.truthy page_status_desc then Webhook.fmt repr_nonstr page_status_desc
  else if Py.truthy impact then
    match impact with
    | JStr i => PyStr.capitalize i ++ " impact"
    | _ => ""
    end
  else
    match incident_status with
    | JStr s => PyStr.capitalize s
    | _ => ""
    end.

End Accept.

(** A payload with null where the documented shape has optional strings. *)
Definition null_fields_payload : json :=
  JObj [ ("page", JObj [("status_description", JNull)]);
         ("incident",
          JObj [ ("name", JStr "Realtime API errors");
                 ("status", JStr "monitoring");
                 ("impact", JNull);
                 ("incident_updates",
                  JArr [JObj [("body", JStr "A fix has been implemented.")]]) ]) ].



(** The latest publish time among the newest entries of the fetches, taken
    together with the time already seen; fetches that are empty or whose
    newest entry does not parse contribute nothing. *)
Fixpoint latest_seen (parse : string -> option datetime)
    (seen : option datetime) (fetches : list (list Poller.entry))
    : option datetime :=
  match fetches with
  | [] => seen
  | entries :: rest =>
      latest_seen parse
        (match Poller.newest_time parse entries, seen with
         | Some t, Some s => Some (Z.max s t)
         | Some t, None => Some t
         | None, _ => seen
         end) rest
  end.


Definition entry_bad_date : Poller.entry :=
  {| Poller.title := "Scheduled maintenance";
     Poller.summary := "Planned";
     Poller.published := "soon" |}.

(** The number of line breaks in a text. *)
Fixpoint count_newlines (s : string) : nat :=
  match s with
  | EmptyString => 0
  | String c s' =>
      (if Ascii.eqb c (ascii_of_nat 10) then 1 else 0) + count_newlines s'
  end.

(** No trigger of the table is the empty string. *)
Definition triggers_nonempty (table : Classifier.keyword_table) : bool :=
  forallb (fun item => forallb PyStr.nonempty (snd item)) table.

(** * Properties *)

(** ** Classifier *)

Section ClassifierFacts.

Import Classifier.

Variable text_lower : string.

(** Items that do not beat the current best score leave the best match as
    it is. *)
Lemma scan_keep (items : keyword_table) (best_match : string) (best_score : nat) :
  Forall (fun item => score (snd item) text_lower <= best_score) items ->
  scan items text_lower best_match best_score = best_match.
Proof.
  induction 1 as [| [p kws] rest Hle _ IH]; simpl; [reflexivity |].
  simpl in Hle.
  destruct (Nat.ltb_spec best_score (score kws text_lower)); [lia | exact IH].
Qed.

(** The first item whose score reaches the maximum wins, whatever the loop
    held before it, as long as that was strictly smaller. *)
Lemma scan_first_max (pre rest : keyword_table) (label : string)
    (keywords : list string) (best_match : string) (best_score : nat) :
  best_score < score keywords text_lower ->
  Forall (fun item => score (snd item) text_lower < score keywords text_lower) pre ->
  Forall (fun item => score (snd item) text_lower <= score keywords text_lower) rest ->
  scan (pre ++ (label, keywords) :: rest)%list text_lower best_match best_score
  = label.
Proof.
  intros Hbs Hpre Hrest. revert best_match best_score Hbs.
  induction Hpre as [| [p kws] pre Hlt _ IH]; intros best_match best_score Hbs; simpl.
  - destruct (Nat.ltb_spec best_score (score keywords text_lower)); [| lia].
    now apply scan_keep.
  - simpl in Hlt.
    destruct (Nat.ltb_spec best_score (score kws text_lower)); now apply IH.
Qed.

Lemma score_no_hit (keywords : list string) :
  Forall (fun kw => PyStr.contains kw text_lower = false) keywords ->
  score keywords text_lower = 0.
Proof.
  unfold score. induction 1 as [| kw kws Hkw _ IH]; simpl; [reflexivity |].
  now rewrite Hkw.
Qed.

End ClassifierFacts.

(** C2, for the earliest of the tied labels. When two labels of the Keyword
    Table reach the same score, that score is positive and no label scores
    more, the classifier returns the one of the two that is defined first,
    provided no label defined before it reaches that score as well; so it
    does when each of the two has exactly one trigger in the text and no
    other label has any. *)
Theorem detect_product_tie_earliest :
  forall (default : string) (pre mid post : Classifier.keyword_table)
         (l1 l2 : string) (k1 k2 : list string) (text : string),
    (forall s : nat,
       Classifier.score k1 (PyStr.lower text) = s ->
       Classifier.score k2 (PyStr.lower text) = s ->
       0 < s ->
       Forall (fun item => Classifier.score (snd item) (PyStr.lower text) <= s)
              (pre ++ mid ++ post)%list ->
       Forall (fun item => Classifier.score (snd item) (PyStr.lower text) < s)
              pre ->
       Classifier.detect_product_with default
         (pre ++ (l1, k1) :: mid ++ (l2, k2) :: post)%list text = l1) /\
    (Classifier.score k1 (PyStr.lower text) = 1 ->
     Classifier.score k2 (PyStr.lower text) = 1 ->
     Forall (fun item => Classifier.score (snd item) (PyStr.lower text) = 0)
            (pre ++ mid ++ post)%list ->
     Classifier.detect_product_with default
       (pre ++ (l1, k1) :: mid ++ (l2, k2) :: post)%list text = l1).
Proof.
  intros default pre mid post l1 l2 k1 k2 text.
  assert (Hgen : forall s : nat,
            Classifier.score k1 (PyStr.lower text) = s ->
            Classifier.score k2 (PyStr.lower text) = s ->
            0 < s ->
            Forall (fun item => Classifier.score (snd item) (PyStr.lower text) <= s)
                   (pre ++ mid ++ post)%list ->
            Forall (fun item => Classifier.score (snd item) (PyStr.lower text) < s)
                   pre ->
            Classifier.detect_product_with default
              (pre ++ (l1, k1) :: mid ++ (l2, k2) :: post)%list text = l1).
  { intros s H1 H2 Hpos Hmax Hpre.
    unfold Classifier.detect_product_with.
    apply Forall_app in Hmax as [_ Hrest].
    apply Forall_app in Hrest as [Hmid Hpost].
    apply scan_first_max; rewrite H1; [exact Hpos | exact Hpre |].
    apply Forall_app; split; [exact Hmid |].
    constructor; [simpl; lia | exact Hpost]. }
  split; [exact Hgen |].
  intros H1 H2 Hzero. apply (Hgen 1 H1 H2); [lia | |].
  - eapply Forall_impl; [| exact Hzero]. simpl. intros a Ha. rewrite Ha. lia.
  - apply Forall_app in Hzero as [Hpre _].
    eapply Forall_impl; [| exact Hpre]. simpl. intros a Ha. rewrite Ha. lia.
Qed.

(** Two triggers each of the Batch and the Realtime label beside one of
    Chat Completions; and one trigger each of Batch and Realtime alone: the
    webhook table defines Batch before Realtime. *)
Lemma detect_product_tie_earliest_witness :
  App.detect_product
    "chat completions: batch api and batch jobs, realtime api over webrtc"
  = "OpenAI API - Batch" /\
  App.detect_product "Batch API errors and WebRTC drops" = "OpenAI API - Batch".
Proof.
  split.
  - apply (proj1 (detect_product_tie_earliest App.default_label
             (firstn 3 App.PRODUCT_KEYWORDS) [] (skipn 5 App.PRODUCT_KEYWORDS)
             "OpenAI API - Batch" "OpenAI API - Realtime"
             ["batch api"; "batch jobs"; "batch endpoint"]
             ["realtime api"; "webrtc"; "realtime connections"]
             "chat completions: batch api and batch jobs, realtime api over webrtc")
             2).
    + reflexivity.
    + reflexivity.
    + lia.
    + repeat (constructor; [vm_compute; lia |]). constructor.
    + repeat (constructor; [vm_compute; lia |]). constructor.
  - apply (proj2 (detect_product_tie_earliest App.default_label
             (firstn 3 App.PRODUCT_KEYWORDS) [] (skipn 5 App.PRODUCT_KEYWORDS)
             "OpenAI API - Batch" "OpenAI API - Realtime"
             ["batch api"; "batch jobs"; "batch endpoint"]
             ["realtime api"; "webrtc"; "realtime connections"]
             "Batch API errors and WebRTC drops")).
    + reflexivity.
    + reflexivity.
    + repeat (constructor; [reflexivity |]). constructor.
Defined.

(** Three labels tie at one hit each: Batch and Realtime reach the highest
    score, yet the label returned is Chat Completions, defined before
    both. *)
Lemma detect_product_tie_earliest_counterexample :
  ~ (forall (default : string) (pre mid post : Classifier.keyword_table)
            (l1 l2 : string) (k1 k2 : list string) (text : string) (s : nat),
       Classifier.score k1 (PyStr.lower text) = s ->
       Classifier.score k2 (PyStr.lower text) = s ->
       0 < s ->
       Forall (fun item => Classifier.score (snd item) (PyStr.lower text) <= s)
              (pre ++ mid ++ post)%list ->
       Classifier.detect_product_with default
         (pre ++ (l1, k1) :: mid ++ (l2, k2) :: post)%list text = l1).
Proof.
  intros H.
  specialize (H App.default_label
                (firstn 3 App.PRODUCT_KEYWORDS) [] (skipn 5 App.PRODUCT_KEYWORDS)
                "OpenAI API - Batch" "OpenAI API - Realtime"
                ["batch api"; "batch jobs"; "batch endpoint"]
                ["realtime api"; "webrtc"; "realtime connections"]
                "chat completions, batch api and webrtc" 1
                eq_refl eq_refl (le_n 1)).
  assert (Hmax : Forall
            (fun item =>
               Classifier.score (snd item)
                 (PyStr.lower "chat completions, batch api and webrtc") <= 1)
            (firstn 3 App.PRODUCT_KEYWORDS ++ [] ++ skipn 5 App.PRODUCT_KEYWORDS)%list)
    by (repeat (constructor; [vm_compute; lia |]); constructor).
  specialize (H Hmax). vm_compute in H. discriminate H.
Qed.

Example three_way_tie :
  App.detect_product "chat completions, batch api and webrtc"
  = "OpenAI API - Chat Completions".
Proof. reflexivity. Qed.

(** The same tie in the poller's table, and a tie the other way round in
    the text: the order of the table decides, not the order in the text. *)
Example tie_poller :
  StatusMonitor.detect_product "webrtc realtime and batch job failures"
  = "Batch API".
Proof. reflexivity. Qed.

Example tie_text_order :
  App.detect_product "WebRTC drops, then Batch API errors" = "OpenAI API - Batch".
Proof. reflexivity. Qed.

(** C3. A text whose lower-cased form contains no trigger of any label is
    classified with the catch-all default label. *)
Theorem detect_product_no_keyword_default :
  forall (default : string) (table : Classifier.keyword_table) (text : string),
    Forall (fun item =>
              Forall (fun kw => PyStr.contains kw (PyStr.lower text) = false)
                     (snd item)) table ->
    Classifier.detect_product_with default table text = default.
Proof.
  intros default table text H.
  unfold Classifier.detect_product_with.
  apply scan_keep.
  eapply Forall_impl; [| exact H].
  intros item Hitem. now rewrite (score_no_hit _ _ Hitem).
Qed.

Lemma detect_product_no_keyword_default_witness :
  App.detect_product "Elevated error rates on the dashboard"
  = "OpenAI Platform / Multiple services".
Proof.
  apply (detect_product_no_keyword_default App.default_label
           App.PRODUCT_KEYWORDS "Elevated error rates on the dashboard").
  repeat constructor.
Defined.

Example no_keyword_poller :
  StatusMonitor.detect_product "Elevated error rates on the dashboard"
  = "OpenAI Platform / Multiple Services".
Proof. reflexivity. Qed.

(** C4. The text built from the incident name "Chat Completions API
    latency" and the update body "Investigating reports of elevated latency
    in gpt-4o responses" is classified as the Chat Completions label, by
    both tables, and that label scores three hits, which is more than
    one. *)
Theorem chat_completions_example :
  App.detect_product
    ("Chat Completions API latency" ++ " " ++
     "Investigating reports of elevated latency in gpt-4o responses")
  = "OpenAI API - Chat Completions" /\
  (exists keywords,
     In ("OpenAI API - Chat Completions", keywords) App.PRODUCT_KEYWORDS /\
     Classifier.score keywords
       (PyStr.lower
          ("Chat Completions API latency" ++ " " ++
           "Investigating reports of elevated latency in gpt-4o responses"))
     = 3) /\
  StatusMonitor.detect_product
    ("Chat Completions API latency" ++ " " ++
     "Investigating reports of elevated latency in gpt-4o responses")
  = "Chat Completions API" /\
  (exists keywords,
     In ("Chat Completions API", keywords) StatusMonitor.PRODUCT_KEYWORDS /\
     Classifier.score keywords
       (PyStr.lower
          ("Chat Completions API latency" ++ " " ++
           "Investigating reports of elevated latency in gpt-4o responses"))
     = 3).
Proof.
  split; [reflexivity | split; [| split; [reflexivity |]]].
  - eexists. split; [left; reflexivity | reflexivity].
  - eexists. split; [left; reflexivity | reflexivity].
Qed.

(** ** Webhook receiver *)

Section WebhookFacts.

Import Webhook Shape.

Variable repr_nonstr : json -> string.
Variable strftime : datetime -> string.

Lemma opt_str_cases (d : list (string * json)) (k : string) :
  opt_str d k = true ->
  Py.dict_lookup k d = None \/ exists s, Py.dict_lookup k d = Some (JStr s).
Proof.
  unfold opt_str. destruct (Py.dict_lookup k d) as [[]|]; try discriminate; eauto.
Qed.

Lemma forallb_last {A} (f : A -> bool) (l : list A) (x : A) :
  f x = true -> forallb f l = true -> f (List.last l x) = true.
Proof.
  revert x. induction l as [| y l IH]; intros x Hx Hl; [exact Hx |].
  simpl in Hl. apply andb_prop in Hl as [Hy Hl].
  destruct l as [| z l']; [exact Hy |].
  change (f (List.last (z :: l') x) = true). now apply IH.
Qed.

(** On an incident of the documented shape the extraction returns a
    string. *)
Lemma extract_shaped (di : list (string * json)) :
  opt_str di "status" = true ->
  updates_shape di = true ->
  exists body, extract_latest_update repr_nonstr (JObj di) = Ok (JStr body).
Proof.
  intros Hst Hup. unfold extract_latest_update, updates_shape in *.
  simpl Py.get. unfold Py.field_or at 1.
  destruct (Py.dict_lookup "incident_updates" di) as [[| | | | | l |]|];
    try discriminate; simpl.
  - destruct l as [| x l]; simpl.
    + unfold fallback_status; eauto.
    + simpl in Hup. apply andb_prop in Hup as [Hx Hl].
      pose proof (forallb_last _ _ _ Hx Hl) as Hlast.
      destruct (List.last l x) as [| | | | | |u]; try discriminate.
      simpl in Hlast. apply andb_prop in Hlast as [Hb Hs].
      simpl. unfold Py.field_or at 1. unfold Py.field_or at 1.
      destruct (opt_str_cases _ _ Hb) as [-> | [b ->]]; simpl.
      * unfold fallback_status; eauto.
      * destruct b; simpl; [unfold fallback_status; eauto | eauto].
  - unfold fallback_status; eauto.
Qed.

(** The handler's expression agrees with the resolution order of the
    specification on fields that are strings or missing. *)
Lemma status_description_shaped (pd di : list (string * json)) :
  opt_str pd "status_description" = true ->
  opt_str di "impact" = true ->
  opt_str di "status" = true ->
  status_description
    (Py.field_or pd "status_description" JNull)
    (Py.field_or di "impact" JNull)
    (Py.field_or di "status" (JStr "unknown"))
  = Ok (JStr (first_nonempty_status (str_field pd "status_description")
                (str_field di "impact") (str_field di "status"))).
Proof.
  intros Hd Hi Hs. unfold status_description, str_field, Py.field_or.
  destruct (opt_str_cases _ _ Hd) as [-> | [d ->]];
  destruct (opt_str_cases _ _ Hi) as [-> | [i ->]];
  destruct (opt_str_cases _ _ Hs) as [-> | [s ->]];
  try destruct d; try destruct i; reflexivity.
Qed.

Variable now : datetime.

Lemma page_field_shaped (d : list (string * json)) :
  page_shape d = true ->
  Py.field_or d "page" (JObj []) = JObj (page_fields d) /\
  opt_str (page_fields d) "status_description" = true.
Proof.
  unfold page_shape, page_fields, Py.field_or.
  destruct (Py.dict_lookup "page" d) as [[]|]; try discriminate; auto.
Qed.

Lemma name_shaped (di : list (string * json)) :
  opt_str di "name" = true ->
  fmt repr_nonstr (Py.field_or di "name" (JStr "Unknown incident"))
  = match str_field di "name" with Some n => n | None => "Unknown incident" end.
Proof.
  intros H. unfold str_field, Py.field_or.
  destruct (opt_str_cases _ _ H) as [-> | [n ->]]; reflexivity.
Qed.

(** What the handler does with a payload of the documented shape. *)
Lemma handle_shaped (p : json) :
  payload_shape p = true ->
  exists d di body,
    p = JObj d /\
    Py.dict_lookup "incident" d = Some (JObj di) /\
    extract_latest_update repr_nonstr (JObj di) = Ok (JStr body) /\
    handle_openai_status repr_nonstr strftime now (Some p) []
    = ([format_log_line repr_nonstr strftime now
          (App.detect_product
             (match str_field di "name" with
              | Some n => n
              | None => "Unknown incident"
              end ++ " " ++ body))
          (JStr (first_nonempty_status
                   (str_field (page_fields d) "status_description")
                   (str_field di "impact") (str_field di "status")))
          (JStr body)],
       Ok (JObj [("ok", JBool true)])).
Proof.
  intros H. destruct p as [| | | | | | d]; try discriminate.
  simpl in H. apply andb_prop in H as [Hpage Hinc].
  destruct (Py.dict_lookup "incident" d) as [inc|] eqn:Einc; [| discriminate].
  destruct inc as [| | | | | | di]; try discriminate.
  destruct di as [| f di']; [discriminate |].
  set (di := f :: di') in *.
  cbv beta iota delta [incident_shape] in Hinc. subst di.
  set (di := f :: di') in *.
  apply andb_prop in Hinc as [Hinc Hup].
  apply andb_prop in Hinc as [Hinc Himp].
  apply andb_prop in Hinc as [Hname Hst].
  destruct (extract_shaped di Hst Hup) as [body Hbody].
  destruct (page_field_shaped d Hpage) as [Epage Hdesc].
  exists d, di, body. repeat split; try assumption.
  assert (Efield : Py.field_or d "incident" JNull = JObj di)
    by (unfold Py.field_or; now rewrite Einc).
  unfold handle_openai_status, bind, lift, ret, raise, logger_info.
  cbv beta iota delta [Py.get].
  rewrite !Efield, Epage.
  change (Py.truthy (JObj di)) with true. cbv beta iota delta [negb].
  rewrite Hbody.
  rewrite (status_description_shaped (page_fields d) di Hdesc Himp Hst).
  rewrite (name_shaped di Hname).
  reflexivity.
Qed.

(** A payload object whose "incident" is missing or falsy is refused
    before anything is logged. *)
Lemma handle_no_incident (d : list (string * json)) (out : log_stream) :
  Py.truthy (Py.field_or d "incident" JNull) = false ->
  handle_openai_status repr_nonstr strftime now (Some (JObj d)) out
  = (out, Raise (HTTPException 400 "No incident object in payload")).
Proof.
  intros H.
  unfold handle_openai_status, bind, lift, ret, raise.
  cbv beta iota delta [Py.get]. now rewrite H.
Qed.

End WebhookFacts.

(** C5. A request body that decodes but is not a JSON object, such as [],
    and a payload object whose "incident" is not an object, such as
    {"incident": "down"}, hold no incident object, yet they are not
    answered with a 400: the handler calls [get] on them, the
    AttributeError is not caught, and the caller sees a 500 with nothing
    logged. The guards next to it answer a body that does not decode, and
    a payload object without the key, with a 400. *)
Theorem webhook_non_object_payload_500 :
  forall (repr_nonstr : json -> string) (strftime : datetime -> string)
         (now : datetime),
    Shape.has_incident_object (JArr []) = false /\
    Webhook.post repr_nonstr strftime now (Some (JArr []))
      = (server_error, []) /\
    Shape.has_incident_object (JObj [("incident", JStr "down")]) = false /\
    Webhook.post repr_nonstr strftime now
      (Some (JObj [("incident", JStr "down")]))
      = (server_error, []) /\
    Webhook.post repr_nonstr strftime now None
      = (bad_request "Invalid JSON", []) /\
    Webhook.post repr_nonstr strftime now (Some (JObj []))
      = (bad_request "No incident object in payload", []).
Proof. intros. repeat split. Qed.

Example array_payload_500 :
  Webhook.post sample_repr sample_strftime 0%Z (Some (JArr []))
  = ({| Webhook.status := 500;
        Webhook.content := JStr "Internal Server Error" |}, []).
Proof. reflexivity. Qed.

Example string_incident_500 :
  Shape.has_incident_object (JObj [("incident", JStr "down")]) = false /\
  Webhook.post sample_repr sample_strftime 0%Z
    (Some (JObj [("incident", JStr "down")]))
  = ({| Webhook.status := 500;
        Webhook.content := JStr "Internal Server Error" |}, []).
Proof. split; reflexivity. Qed.

(** C6, with the fallback on an empty body. With no updates (the key
    missing, or an empty list) the result is "Incident status: " followed by the incident's own status,
    "unknown" when it has none. With a non-empty list ending in an update
    object, the result is that update's body when it is non-empty, and
    otherwise "Incident status: " followed by that update's status. *)
Theorem extract_latest_update_cases :
  forall (repr_nonstr : json -> string) (d : list (string * json)),
    (Py.dict_lookup "incident_updates" d = None \/
     Py.dict_lookup "incident_updates" d = Some (JArr []) ->
     Webhook.extract_latest_update repr_nonstr (JObj d)
     = Ok (JStr ("Incident status: " ++
                 Webhook.fmt repr_nonstr
                   (Py.field_or d "status" (JStr "unknown"))))) /\
    (forall l u,
       Py.dict_lookup "incident_updates" d = Some (JArr (l ++ [JObj u])%list) ->
       Webhook.extract_latest_update repr_nonstr (JObj d)
       = Ok (if Py.truthy (Py.field_or u "body" JNull)
             then Py.field_or u "body" JNull
             else JStr ("Incident status: " ++
                        Webhook.fmt repr_nonstr
                          (Py.field_or u "status" (JStr "unknown"))))).
Proof.
  intros repr_nonstr d. split.
  - intros [H | H]; unfold Webhook.extract_latest_update;
      cbv beta iota delta [Py.get]; unfold Py.field_or at 1; rewrite H;
      reflexivity.
  - intros l u H. unfold Webhook.extract_latest_update.
    assert (Efield : Py.field_or d "incident_updates" JNull
                     = JArr (l ++ [JObj u])%list)
      by (unfold Py.field_or; now rewrite H).
    assert (Hlast : Py.index_last (JArr (l ++ [JObj u])%list) = Ok (JObj u)).
    { destruct l as [| x l]; [reflexivity |].
      simpl. now rewrite List.last_last. }
    assert (Htruthy : Py.truthy (JArr (l ++ [JObj u])%list) = true)
      by (destruct l; reflexivity).
    cbv beta iota delta [Py.get].
    rewrite Efield, Htruthy. cbv beta iota zeta delta [negb].
    rewrite Htruthy, Hlast.
    destruct (Py.truthy (Py.field_or u "body" JNull)); reflexivity.
Qed.

Lemma extract_latest_update_cases_witness :
  Webhook.extract_latest_update sample_repr
    (JObj [("status", JStr "investigating"); ("incident_updates", JArr [])])
  = Ok (JStr "Incident status: investigating") /\
  Webhook.extract_latest_update sample_repr (JObj sample_incident_fields)
  = Ok (JStr "Incident status: identified").
Proof.
  split.
  - apply (proj1 (extract_latest_update_cases sample_repr
             [("status", JStr "investigating"); ("incident_updates", JArr [])])).
    right. reflexivity.
  - apply (proj2 (extract_latest_update_cases sample_repr sample_incident_fields)
             [JObj [("body", JStr "We are investigating.")]]
             [("body", JStr ""); ("status", JStr "identified")]).
    reflexivity.
Defined.

(** The last update has an empty body: what is taken is not that body but
    the fallback built from the update's status. *)
Lemma extract_latest_update_counterexample :
  ~ (forall (repr_nonstr : json -> string) (d : list (string * json))
            (l : list json) (u : list (string * json)) (body : json),
       Py.dict_lookup "incident_updates" d = Some (JArr (l ++ [JObj u])%list) ->
       Py.dict_lookup "body" u = Some body ->
       Webhook.extract_latest_update repr_nonstr (JObj d) = Ok body).
Proof.
  intros H.
  specialize (H sample_repr sample_incident_fields
                [JObj [("body", JStr "We are investigating.")]]
                [("body", JStr ""); ("status", JStr "identified")]
                (JStr "") eq_refl eq_refl).
  discriminate H.
Qed.

(** ** The payloads the handler acknowledges *)

Lemma last_cons_default {A} (l : list A) :
  forall x d, List.last (x :: l) d = List.last l x.
Proof.
  induction l as [| y l IH]; intros x d; [reflexivity |].
  change (List.last (y :: l) d = List.last (y :: l) x).
  now rewrite !IH.
Qed.

Lemma capitalize_str (v : json) :
  is_str v = true -> exists s, Py.capitalize v = Ok s.
Proof. destruct v; try discriminate. simpl. eauto. Qed.

Lemma capitalize_non_str (v : json) :
  is_str v = false -> Py.capitalize v = Raise AttributeError.
Proof. destruct v; try discriminate; reflexivity. Qed.

Lemma truthy_impact_suffix (s : string) : Py.truthy (JStr (s ++ " impact")) = true.
Proof. destruct s; reflexivity. Qed.

Section AcceptFacts.

Import Webhook Accept.

Variable repr_nonstr : json -> string.
Variable strftime : datetime -> string.
Variable now : datetime.

(** The extraction returns exactly when the updates are falsy or a list
    ending in an object. *)
Lemma extract_returns_iff (di : list (string * json)) :
  (exists v, extract_latest_update repr_nonstr (JObj di) = Ok v)
  <-> updates_ok (Py.field_or di "incident_updates" JNull) = true.
Proof.
  unfold extract_latest_update, updates_ok. cbv beta iota delta [Py.get].
  set (u := Py.field_or di "incident_updates" JNull).
  destruct (Py.truthy u) eqn:Et; cbv beta iota zeta.
  - rewrite Et. cbv beta iota delta [negb].
    destruct u as [| | | | s | [| x l] | fs]; try discriminate Et;
      try (split; [intros [v H]; discriminate H | discriminate]).
    + split; [| discriminate]. intros [v H]. simpl in H.
      destruct (Py.last_char s); discriminate H.
    + rewrite last_cons_default. cbn [Py.index_last].
      destruct (List.last l x) as [| | | | | | uo];
        try (split; [intros [v H]; discriminate H | discriminate]).
      split; [reflexivity | intros _].
      destruct (Py.truthy (Py.field_or uo "body" JNull)); eauto.
  - split; [reflexivity | intros _]. simpl. eauto.
Qed.

(** The status description is resolved exactly when the page description
    is truthy or the value to capitalize is a string, and what is logged
    for it is the text the resolution order gives. *)
Lemma status_description_returns (d i s : json) :
  status_ok d i s = true ->
  exists v, status_description d i s = Ok v /\
            fmt repr_nonstr v = resolved_status repr_nonstr d i s.
Proof.
  unfold status_ok, status_description, resolved_status.
  destruct (Py.truthy d); [intros _; eauto |].
  cbn [orb]. destruct (Py.truthy i).
  - destruct i; try discriminate. intros _. cbn [Py.capitalize].
    rewrite truthy_impact_suffix. eauto.
  - destruct s; try discriminate. intros _. simpl. eauto.
Qed.

Lemma status_description_returned (d i s v : json) :
  status_description d i s = Ok v -> status_ok d i s = true.
Proof.
  unfold status_ok, status_description.
  destruct (Py.truthy d); [reflexivity |].
  cbn [orb]. destruct (Py.truthy i).
  - destruct i; try discriminate. reflexivity.
  - destruct s; try discriminate. reflexivity.
Qed.

(** What the handler does with a payload it accepts. *)
Lemma handle_accepted (p : json) :
  accepted p = true ->
  exists d di pd latest_body,
    p = JObj d /\
    Py.field_or d "incident" JNull = JObj di /\
    Py.field_or d "page" (JObj []) = JObj pd /\
    extract_latest_update repr_nonstr (JObj di) = Ok latest_body /\
    handle_openai_status repr_nonstr strftime now (Some p) []
    = (["[" ++ strftime now ++ "] Product: " ++
        App.detect_product
          (fmt repr_nonstr (Py.field_or di "name" (JStr "Unknown incident"))
           ++ " " ++ fmt repr_nonstr latest_body) ++ newline ++
        "Status: " ++
        resolved_status repr_nonstr
          (Py.field_or pd "status_description" JNull)
          (Py.field_or di "impact" JNull)
          (Py.field_or di "status" (JStr "unknown")) ++
        " - " ++ fmt repr_nonstr latest_body ++ newline ++ rule80],
       Ok (JObj [("ok", JBool true)])).
Proof.
  intros H. destruct p as [| | | | | | d]; try discriminate.
  unfold accepted in H.
  destruct (Py.field_or d "incident" JNull) as [| | | | | | di] eqn:Ei;
    try discriminate.
  destruct (Py.field_or d "page" (JObj [])) as [| | | | | | pd] eqn:Epg;
    try discriminate.
  apply andb_prop in H as [H Hsd]. apply andb_prop in H as [Ht Hup].
  apply extract_returns_iff in Hup as [body Hbody].
  destruct (status_description_returns _ _ _ Hsd) as (sd & Hsd' & Hfmt).
  exists d, di, pd, body. repeat split; try assumption.
  unfold handle_openai_status, bind, lift, ret, raise, logger_info.
  cbv beta iota delta [Py.get].
  rewrite !Ei, Epg, Ht. cbv beta iota delta [negb].
  rewrite Hbody, Hsd'. unfold format_log_line. cbv zeta. rewrite Hfmt.
  reflexivity.
Qed.

(** A payload the handler returns on is an accepted one. *)
Lemma handle_returned (p v : json) (out : log_stream) :
  snd (handle_openai_status repr_nonstr strftime now (Some p) out) = Ok v ->
  accepted p = true.
Proof.
  destruct p as [| | | | | | d]; try (intros H; discriminate H).
  - destruct (Py.truthy (Py.field_or d "incident" JNull)) eqn:Et.
    + unfold accepted.
      unfold handle_openai_status, bind, lift, ret, raise, logger_info.
      cbv beta iota delta [Py.get]. rewrite Et. cbv beta iota delta [negb].
      destruct (Py.field_or d "incident" JNull) as [| | | | | | di];
        try discriminate.
      destruct (Py.field_or d "page" (JObj [])) as [| | | | | | pd];
        try discriminate.
      destruct (extract_latest_update repr_nonstr (JObj di)) as [body |] eqn:Eb;
        [| discriminate].
      destruct (status_description _ _ _) as [sd |] eqn:Es; [| discriminate].
      intros _. rewrite Et.
      rewrite (proj1 (extract_returns_iff di) (ex_intro _ body Eb)).
      now rewrite (status_description_returned _ _ _ _ Es).
    + rewrite handle_no_incident by exact Et. discriminate.
Qed.

Lemma respond_acknowledgment (r : result json) :
  respond r = acknowledgment -> exists v, r = Ok v.
Proof.
  destruct r as [v | e]; [eauto |].
  destruct e; discriminate.
Qed.

End AcceptFacts.

(** C7. A valid payload is one the handler acknowledges: [Accept.accepted]
    holds exactly of those. For every such payload, the status description
    in the one line logged is the first non-empty of: the page-level
    description, the capitalized impact followed by " impact", the
    capitalized incident status ("unknown" when the incident has none). *)
Theorem status_description_resolution :
  forall (repr_nonstr : json -> string) (strftime : datetime -> string)
         (now : datetime) (p : json),
    (Accept.accepted p = true
     <-> fst (Webhook.post repr_nonstr strftime now (Some p)) = acknowledgment)
    /\
    (Accept.accepted p = true ->
     exists d di pd latest_body,
       p = JObj d /\
       Py.field_or d "incident" JNull = JObj di /\
       Py.field_or d "page" (JObj []) = JObj pd /\
       Webhook.extract_latest_update repr_nonstr (JObj di) = Ok latest_body /\
       snd (Webhook.post repr_nonstr strftime now (Some p))
       = ["[" ++ strftime now ++ "] Product: " ++
          App.detect_product
            (Webhook.fmt repr_nonstr
               (Py.field_or di "name" (JStr "Unknown incident"))
             ++ " " ++ Webhook.fmt repr_nonstr latest_body) ++ newline ++
          "Status: " ++
          Accept.resolved_status repr_nonstr
            (Py.field_or pd "status_description" JNull)
            (Py.field_or di "impact" JNull)
            (Py.field_or di "status" (JStr "unknown")) ++
          " - " ++ Webhook.fmt repr_nonstr latest_body ++ newline ++ rule80]).
Proof.
  intros repr_nonstr strftime now p. split; [split |].
  - intros H.
    destruct (handle_accepted repr_nonstr strftime now p H)
      as (d & di & pd & body & _ & _ & _ & _ & Hrun).
    unfold Webhook.post. now rewrite Hrun.
  - unfold Webhook.post.
    destruct (Webhook.handle_openai_status repr_nonstr strftime now (Some p) [])
      as [out r] eqn:Hrun.
    cbn [fst]. intros Hack.
    destruct (respond_acknowledgment r Hack) as [v ->].
    apply (handle_returned repr_nonstr strftime now p v []).
    now rewrite Hrun.
  - intros H.
    destruct (handle_accepted repr_nonstr strftime now p H)
      as (d & di & pd & body & Ep & Ei & Epg & Eb & Hrun).
    exists d, di, pd, body. repeat split; try assumption.
    unfold Webhook.post. now rewrite Hrun.
Qed.

(** A payload whose page description and impact are null: the line reads
    "Monitoring", the capitalized incident status. *)
Lemma status_description_resolution_witness :
  Accept.accepted null_fields_payload = true /\
  snd (Webhook.post sample_repr sample_strftime 0%Z (Some null_fields_payload))
  = ["[2025-11-03 10:00:00] Product: OpenAI API - Realtime" ++ newline ++
     "Status: Monitoring - A fix has been implemented." ++ newline ++ rule80].
Proof.
  split; [reflexivity |].
  destruct (proj2 (status_description_resolution sample_repr sample_strftime
                     0%Z null_fields_payload) eq_refl)
    as (d & di & pd & body & Ep & Ei & Epg & Eb & Hlog).
  rewrite Hlog.
  injection Ep as <-.
  injection Ei as <-. injection Epg as <-.
  injection Eb as <-. reflexivity.
Defined.

Example documented_shape_accepted :
  Accept.accepted sample_payload = true.
Proof. reflexivity. Qed.

Example sample_log_line :
  snd (Webhook.post sample_repr sample_strftime 0%Z (Some sample_payload))
  = ["[2025-11-03 10:00:00] Product: OpenAI API - Chat Completions" ++ newline ++
     "Status: Major impact - Investigating reports of elevated latency in gpt-4o responses"
     ++ newline ++ rule80].
Proof. reflexivity. Qed.

Example resolution_order :
  Shape.first_nonempty_status (Some "Major System Outage") (Some "major") (Some "monitoring")
    = "Major System Outage" /\
  Shape.first_nonempty_status None (Some "major") (Some "monitoring")
    = "Major impact" /\
  Shape.first_nonempty_status (Some "") (Some "") (Some "MONITORING")
    = "Monitoring" /\
  Shape.first_nonempty_status None None None = "Unknown".
Proof. repeat split. Qed.

(** C9. A payload object whose "incident" key is present but holds a falsy
    value (null, an empty object, an empty list or string, zero, false) is
    answered with the same 400 as a payload object without the key. *)
Theorem falsy_incident_rejected :
  forall (repr_nonstr : json -> string) (strftime : datetime -> string)
         (now : datetime) (d : list (string * json)) (v : json),
    Py.dict_lookup "incident" d = Some v ->
    Py.truthy v = false ->
    Webhook.post repr_nonstr strftime now (Some (JObj d))
      = (bad_request "No incident object in payload", []) /\
    forall d', Py.dict_lookup "incident" d' = None ->
      Webhook.post repr_nonstr strftime now (Some (JObj d))
      = Webhook.post repr_nonstr strftime now (Some (JObj d')).
Proof.
  intros repr_nonstr strftime now d v Hd Hv.
  assert (Hpost : Webhook.post repr_nonstr strftime now (Some (JObj d))
                  = (bad_request "No incident object in payload", [])).
  { unfold Webhook.post. rewrite handle_no_incident; [reflexivity |].
    unfold Py.field_or. now rewrite Hd. }
  split; [exact Hpost |].
  intros d' Hd'. rewrite Hpost. unfold Webhook.post.
  rewrite handle_no_incident; [reflexivity |].
  unfold Py.field_or. now rewrite Hd'.
Qed.

Lemma falsy_incident_rejected_witness :
  Webhook.post sample_repr sample_strftime 0%Z
    (Some (JObj [("page", JObj []); ("incident", JObj [])]))
  = (bad_request "No incident object in payload", []).
Proof.
  apply (falsy_incident_rejected sample_repr sample_strftime 0%Z
           [("page", JObj []); ("incident", JObj [])] (JObj []));
    reflexivity.
Defined.

Example falsy_values :
  map Py.truthy
    [JNull; JObj []; JArr []; JStr ""; JInt 0; JBool false;
     JFloat (S754_zero false)]
  = [false; false; false; false; false; false; false].
Proof. reflexivity. Qed.

(** ** Log store *)

Section StoreFacts.

Import Poller.

(** One append on a file that holds a sequence: the sequence is read,
    extended at the end and written back. *)
Lemma log_to_json_holds (data : json) (w : world) (l : list json) :
  log_file w = Holds (JArr l) ->
  log_to_json data w = (with_log w (Holds (JArr (l ++ [data])%list)), Ok tt).
Proof.
  intros H. unfold log_to_json, bind, exists_log, load_log, lift, write_log, ret.
  rewrite H. simpl. rewrite H. reflexivity.
Qed.

(** One append when there is no file: it is created holding the empty
    sequence, then extended. *)
Lemma log_to_json_absent (data : json) (w : world) :
  log_file w = Absent ->
  log_to_json data w = (with_log w (Holds (JArr [data])), Ok tt).
Proof.
  intros H. unfold log_to_json, bind, exists_log, load_log, lift, write_log, ret.
  rewrite H. reflexivity.
Qed.

(** An append either extends the stored sequence by the record and
    returns, or raises and leaves the file as it was. *)
Lemma log_to_json_spec (data : json) (w : world) :
  (snd (log_to_json data w) = Ok tt /\
   fst (log_to_json data w)
   = with_log w (Holds (JArr (stored (log_file w) ++ [data])%list)) /\
   (log_file w = Absent \/ exists l, log_file w = Holds (JArr l)))
  \/ (fst (log_to_json data w) = w /\ exists e, snd (log_to_json data w) = Raise e).
Proof.
  destruct (log_file w) as [| doc | |] eqn:E.
  - left. rewrite (log_to_json_absent _ _ E). simpl. auto.
  - destruct doc as [| | | | | l |];
      try solve [right; unfold log_to_json, bind, exists_log, load_log, lift,
                   write_log, ret; rewrite E; simpl; rewrite E; simpl; eauto].
    left. rewrite (log_to_json_holds _ _ _ E). simpl. eauto.
  - right. unfold log_to_json, bind, exists_log, load_log, lift, write_log, ret.
    rewrite E. simpl. rewrite E. simpl. eauto.
  - right. unfold log_to_json, bind, exists_log, load_log, lift, write_log, ret.
    rewrite E. simpl. rewrite E. simpl. eauto.
Qed.

Lemma read_record_json (r : log_record) : read_record (record_json r) = Some r.
Proof. destruct r. reflexivity. Qed.

Lemma read_records_json (rs : list log_record) :
  read_records (map record_json rs) = Some rs.
Proof.
  induction rs as [| r rs IH]; [reflexivity |].
  cbn [map read_records]. now rewrite read_record_json, IH.
Qed.

Lemma append_all_holds (rs : list log_record) :
  forall (w : world) (l : list json),
    log_file w = Holds (JArr l) ->
    append_all rs w
    = (with_log w (Holds (JArr (l ++ map record_json rs)%list)), Ok tt).
Proof.
  induction rs as [| r rs IH]; intros w l H; simpl.
  - unfold ret. rewrite app_nil_r, <- H. now destruct w.
  - unfold bind. rewrite (log_to_json_holds _ _ _ H).
    rewrite (IH (with_log w (Holds (JArr (l ++ [record_json r])%list)))
               (l ++ [record_json r])%list eq_refl).
    unfold with_log; simpl. now rewrite <- app_assoc.
Qed.

Lemma append_all_absent (r : log_record) (rs : list log_record) (w : world) :
  log_file w = Absent ->
  append_all (r :: rs) w
  = (with_log w (Holds (JArr (map record_json (r :: rs)))), Ok tt).
Proof.
  intros H. simpl. unfold bind. rewrite (log_to_json_absent _ _ H).
  now rewrite (append_all_holds rs (with_log w (Holds (JArr [record_json r])))
                 [record_json r] eq_refl).
Qed.

End StoreFacts.

(** C8. Appending the N records of a sequence one after the other, starting
    with no log file, succeeds, and the file then holds exactly those N
    records in that order, each read back with its four fields; with N = 0
    nothing is appended and no file is created. Each single append writes
    back the sequence it read with the new record at the end, the sequence
    read being empty when the file had to be created. *)
Theorem log_store_round_trip :
  forall (N : nat) (rs : list Poller.log_record) (w : Poller.world),
    List.length rs = N ->
    Poller.log_file w = Poller.Absent ->
    snd (Poller.append_all rs w) = Ok tt /\
    Poller.read_records
      (Poller.stored (Poller.log_file (fst (Poller.append_all rs w)))) = Some rs /\
    List.length (Poller.stored (Poller.log_file (fst (Poller.append_all rs w)))) = N /\
    (0 < N ->
     Poller.log_file (fst (Poller.append_all rs w))
     = Poller.Holds (JArr (map Poller.record_json rs)) /\
     Poller.read_log (Poller.log_file (fst (Poller.append_all rs w))) = Some rs) /\
    (N = 0 -> Poller.log_file (fst (Poller.append_all rs w)) = Poller.Absent) /\
    (forall data,
       Poller.log_to_json data w
       = (Poller.with_log w (Poller.Holds (JArr [data])), Ok tt)) /\
    (forall data w1 l,
       Poller.log_file w1 = Poller.Holds (JArr l) ->
       Poller.log_to_json data w1
       = (Poller.with_log w1 (Poller.Holds (JArr (l ++ [data])%list)), Ok tt)).
Proof.
  intros N rs w HN Hw.
  assert (Hone : forall data,
            Poller.log_to_json data w
            = (Poller.with_log w (Poller.Holds (JArr [data])), Ok tt))
    by (intros; now apply log_to_json_absent).
  destruct rs as [| r rs].
  - simpl in *. subst N. rewrite Hw. simpl.
    repeat split; auto using log_to_json_holds; lia.
  - rewrite (append_all_absent r rs w Hw). cbn [fst snd Poller.with_log Poller.log_file Poller.stored Poller.read_log].
    rewrite read_records_json, length_map.
    repeat split; auto using log_to_json_holds; subst N; simpl; lia.
Qed.

Lemma log_store_round_trip_witness :
  Poller.read_log
    (Poller.log_file
       (fst (Poller.append_all sample_records (Poller.initial Poller.Absent))))
  = Some sample_records.
Proof.
  apply (log_store_round_trip 3 sample_records (Poller.initial Poller.Absent)
           eq_refl eq_refl).
  lia.
Defined.

(** ** Feed poller *)

Section PollerFacts.

Import Poller.

Variable parse : string -> option datetime.
Variable strftime : datetime -> string.

(** An empty fetch: a warning is printed, nothing else changes. *)
Lemma cycle_empty (w : world) :
  last_seen (fst (poll_cycle parse strftime [] w)) = last_seen w /\
  log_file (fst (poll_cycle parse strftime [] w)) = log_file w /\
  snd (poll_cycle parse strftime [] w) = Ok tt.
Proof. repeat split. Qed.

(** A publish time that does not parse ends the loop and changes nothing. *)
Lemma cycle_unparsed (e : entry) (rest : list entry) (w : world) :
  parse (published e) = None ->
  poll_cycle parse strftime (e :: rest) w = (w, Raise ParserError).
Proof.
  intros H. unfold poll_cycle, bind, parser_parse, raise. now rewrite H.
Qed.

(** The first successful fetch sets the baseline and stores nothing. *)
Lemma cycle_init (e : entry) (rest : list entry) (w : world) (t : datetime) :
  parse (published e) = Some t ->
  last_seen w = None ->
  last_seen (fst (poll_cycle parse strftime (e :: rest) w)) = Some t /\
  log_file (fst (poll_cycle parse strftime (e :: rest) w)) = log_file w /\
  snd (poll_cycle parse strftime (e :: rest) w) = Ok tt.
Proof.
  intros Hp Hs. unfold poll_cycle, bind, parser_parse, ret, get_last_seen.
  rewrite Hp, Hs. repeat split.
Qed.

(** A newest entry that is not strictly later than the last one seen
    changes nothing at all. *)
Lemma cycle_not_newer (e : entry) (rest : list entry) (w : world)
    (t t0 : datetime) :
  parse (published e) = Some t ->
  last_seen w = Some t0 ->
  (t <= t0)%Z ->
  poll_cycle parse strftime (e :: rest) w = (w, Ok tt).
Proof.
  intros Hp Hs Hle. unfold poll_cycle, bind, parser_parse, ret, get_last_seen.
  rewrite Hp, Hs.
  destruct (Z.ltb_spec t0 t); [lia | reflexivity].
Qed.

(** What [print_incident] leaves behind: the printed block, and the store
    as [log_to_json] leaves it. *)
Lemma print_incident_run (e : entry) (w : world) (t : datetime) :
  parse (published e) = Some t ->
  exists w1,
    last_seen w1 = last_seen w /\ log_file w1 = log_file w /\
    print_incident parse strftime e w = log_to_json (incident_record strftime e t) w1.
Proof.
  intros Hp. unfold print_incident, bind, parser_parse, ret, print.
  rewrite Hp. eexists. split; [| split]; [| | reflexivity]; reflexivity.
Qed.

(** A strictly later newest entry: either its record is appended and the
    time is remembered, or the store raises and neither changes. *)
Lemma cycle_newer (e : entry) (rest : list entry) (w : world)
    (t t0 : datetime) :
  parse (published e) = Some t ->
  last_seen w = Some t0 ->
  (t0 < t)%Z ->
  (snd (poll_cycle parse strftime (e :: rest) w) = Ok tt /\
   last_seen (fst (poll_cycle parse strftime (e :: rest) w)) = Some t /\
   log_file (fst (poll_cycle parse strftime (e :: rest) w))
   = Holds (JArr (stored (log_file w) ++ [incident_record strftime e t])%list) /\
   (log_file w = Absent \/ exists l, log_file w = Holds (JArr l)))
  \/ ((exists x, snd (poll_cycle parse strftime (e :: rest) w) = Raise x) /\
      last_seen (fst (poll_cycle parse strftime (e :: rest) w)) = Some t0 /\
      log_file (fst (poll_cycle parse strftime (e :: rest) w)) = log_file w).
Proof.
  intros Hp Hs Hlt.
  destruct (print_incident_run e w t Hp) as (w1 & Hs1 & Hf1 & Hrun).
  unfold poll_cycle, bind, parser_parse, ret, get_last_seen, set_last_seen.
  rewrite Hp, Hs.
  destruct (Z.ltb_spec t0 t); [| lia].
  rewrite Hrun.
  destruct (log_to_json_spec (incident_record strftime e t) w1)
    as [(Hok & Hw & Hshape) | (Hw & x & Hx)].
  - left. destruct (log_to_json (incident_record strftime e t) w1) as [w2 r].
    simpl in Hok, Hw. subst r w2. simpl. rewrite Hf1 in *. auto.
  - right. destruct (log_to_json (incident_record strftime e t) w1) as [w2 r].
    simpl in Hx, Hw. subst r w2. simpl. rewrite Hs1, Hf1. eauto.
Qed.

(** Every cycle falls under one of two descriptions: the store is left as
    it was, and [last_seen] too unless it was unset; or the newest entry is
    strictly later than [last_seen], its record is appended and its time
    becomes [last_seen]. *)
Lemma cycle_spec (entries : list entry) (w : world) :
  (log_file (fst (poll_cycle parse strftime entries w)) = log_file w /\
   (last_seen (fst (poll_cycle parse strftime entries w)) = last_seen w \/ last_seen w = None))
  \/ (exists e rest t t0,
        entries = e :: rest /\ parse (published e) = Some t /\
        last_seen w = Some t0 /\ (t0 < t)%Z /\
        snd (poll_cycle parse strftime entries w) = Ok tt /\
        last_seen (fst (poll_cycle parse strftime entries w)) = Some t /\
        stored (log_file (fst (poll_cycle parse strftime entries w)))
        = (stored (log_file w) ++ [incident_record strftime e t])%list).
Proof.
  destruct entries as [| e rest].
  - left. split; [| left]; apply cycle_empty.
  - destruct (parse (published e)) as [t |] eqn:Hp.
    + destruct (last_seen w) as [t0 |] eqn:Hs.
      * destruct (Z.lt_ge_cases t0 t) as [Hlt | Hge].
        -- destruct (cycle_newer e rest w t t0 Hp Hs Hlt)
             as [(Hok & Hs' & Hf' & _) | (_ & Hs' & Hf')].
           ++ right. exists e, rest, t, t0. rewrite Hf'. repeat split; auto.
           ++ left. rewrite Hs', Hf'. auto.
        -- left. rewrite (cycle_not_newer e rest w t t0 Hp Hs Hge). simpl. auto.
      * left. destruct (cycle_init e rest w t Hp Hs) as (_ & Hf & _). auto.
    + left. rewrite (cycle_unparsed e rest w Hp). simpl. auto.
Qed.

Lemma cycles_cons (entries : list entry) (rest : list (list entry)) (w : world) :
  poll_cycles parse strftime (entries :: rest) w
  = match snd (poll_cycle parse strftime entries w) with
    | Ok _ => poll_cycles parse strftime rest (fst (poll_cycle parse strftime entries w))
    | Raise x => (fst (poll_cycle parse strftime entries w), Raise x)
    end.
Proof.
  simpl. unfold bind. now destruct (poll_cycle parse strftime entries w) as [w1 [[] | x]].
Qed.

(** Running two batches of fetches in a row: the second starts where the
    first stopped, unless the first raised. *)
Lemma cycles_app (a b : list (list entry)) :
  forall w,
    poll_cycles parse strftime (a ++ b)%list w
    = match snd (poll_cycles parse strftime a w) with
      | Ok _ => poll_cycles parse strftime b (fst (poll_cycles parse strftime a w))
      | Raise x => (fst (poll_cycles parse strftime a w), Raise x)
      end.
Proof.
  induction a as [| entries a IH]; intros w; [reflexivity |].
  rewrite <- app_comm_cons, !cycles_cons.
  destruct (snd (poll_cycle parse strftime entries w)); [apply IH | reflexivity].
Qed.

(** Once set, [last_seen] stays set and never decreases over a cycle. *)
Lemma cycle_monotone (entries : list entry) (w : world) :
  seen_le (last_seen w) (last_seen (fst (poll_cycle parse strftime entries w))).
Proof.
  destruct (cycle_spec entries w)
    as [(_ & [Hs | Hs]) | (e & rest & t & t0 & _ & _ & Hs & Hlt & _ & Hs' & _)].
  - rewrite Hs. destruct (last_seen w); simpl; [lia | exact I].
  - rewrite Hs. exact I.
  - rewrite Hs, Hs'. simpl. lia.
Qed.

Lemma seen_le_trans (a b c : option datetime) :
  seen_le a b -> seen_le b c -> seen_le a c.
Proof.
  destruct a, b, c; simpl; try tauto. lia.
Qed.

Lemma seen_le_refl (a : option datetime) : seen_le a a.
Proof. destruct a; simpl; [lia | exact I]. Qed.

Lemma cycles_monotone (fetches : list (list entry)) :
  forall w, seen_le (last_seen w) (last_seen (fst (poll_cycles parse strftime fetches w))).
Proof.
  induction fetches as [| entries rest IH]; intros w; [apply seen_le_refl |].
  rewrite cycles_cons.
  destruct (snd (poll_cycle parse strftime entries w)).
  - eapply seen_le_trans; [apply cycle_monotone | apply IH].
  - apply cycle_monotone.
Qed.

(** A strictly later newest entry on a store that is absent or holds a
    sequence: the record is appended at the end. *)
Lemma cycle_newer_ok (e : entry) (rest : list entry) (w : world)
    (t t0 : datetime) :
  parse (published e) = Some t ->
  last_seen w = Some t0 ->
  (t0 < t)%Z ->
  log_file w = Absent \/ (exists l, log_file w = Holds (JArr l)) ->
  snd (poll_cycle parse strftime (e :: rest) w) = Ok tt /\
  last_seen (fst (poll_cycle parse strftime (e :: rest) w)) = Some t /\
  log_file (fst (poll_cycle parse strftime (e :: rest) w))
  = Holds (JArr (stored (log_file w) ++ [incident_record strftime e t])%list).
Proof.
  intros Hp Hs Hlt Hshape.
  destruct (print_incident_run e w t Hp) as (w1 & Hs1 & Hf1 & Hrun).
  unfold poll_cycle, bind, parser_parse, ret, get_last_seen, set_last_seen.
  rewrite Hp, Hs.
  destruct (Z.ltb_spec t0 t); [| lia].
  rewrite Hrun. rewrite <- Hf1 in *.
  destruct Hshape as [Ha | [l Hl]].
  - rewrite (log_to_json_absent _ _ Ha), Ha. repeat split.
  - rewrite (log_to_json_holds _ _ _ Hl), Hl. repeat split.
Qed.

(** The records appended over a run are those of entries with strictly
    increasing publish times, each the newest entry of one of the fetches
    and each strictly later than the time the run started with. *)
Lemma cycles_fired (fetches : list (list entry)) :
  forall w,
  exists fired : list (entry * datetime),
    stored (log_file (fst (poll_cycles parse strftime fetches w)))
    = (stored (log_file w)
       ++ map (fun p => incident_record strftime (fst p) (snd p)) fired)%list /\
    StronglySorted Z.lt (map snd fired) /\
    Forall (fun p => exists rest,
                In (fst p :: rest) fetches /\
                parse (published (fst p)) = Some (snd p)) fired /\
    (forall t0, last_seen w = Some t0 ->
                Forall (fun p => (t0 < snd p)%Z) fired).
Proof.
  induction fetches as [| entries rest IH]; intros w.
  - exists []. simpl. rewrite app_nil_r. repeat split; constructor.
  - rewrite cycles_cons.
    destruct (cycle_spec entries w)
      as [(Hf & Hs) | (e & r & t & t0 & He & Hp & Hs & Hlt & Hok & Hs' & Hst)].
    + destruct (snd (poll_cycle parse strftime entries w)).
      * destruct (IH (fst (poll_cycle parse strftime entries w)))
          as (fired & Hst & Hsorted & Hin & Hbound).
        exists fired. rewrite Hst, Hf. repeat split; auto.
        -- eapply Forall_impl; [| exact Hin].
           intros p (r & Hr & Hp). exists r. split; [now right | exact Hp].
        -- intros t0 Ht0. apply Hbound.
           destruct Hs as [Hs | Hs]; congruence.
      * exists []. simpl. rewrite Hf, app_nil_r. repeat split; constructor.
    + rewrite Hok.
      destruct (IH (fst (poll_cycle parse strftime entries w)))
        as (fired & Hst' & Hsorted & Hin & Hbound).
      specialize (Hbound t Hs').
      exists ((e, t) :: fired). rewrite Hst', Hst, <- app_assoc.
      repeat split.
      * simpl. constructor; [exact Hsorted |].
        apply Forall_map. exact Hbound.
      * constructor.
        -- exists r. simpl. split; [left; now rewrite He | exact Hp].
        -- eapply Forall_impl; [| exact Hin].
           intros p (r' & Hr & Hp'). exists r'. split; [now right | exact Hp'].
      * intros t1 Ht1. rewrite Hs in Ht1. injection Ht1 as <-.
        constructor; [exact Hlt |].
        eapply Forall_impl; [| exact Hbound]. simpl. intros; lia.
Qed.

(** The banner only prints. *)
Lemma track_status_cycles (w : world) :
  exists out, forall fetches,
    track_status parse strftime fetches w
    = poll_cycles parse strftime fetches (with_stdout w out).
Proof. eexists. intros fetches. reflexivity. Qed.

(** The four-fetch scenario, from any state with no baseline and no file. *)
Lemma cycles_scenario (e1 e2 e2' e3 : entry) (r1 r2 r3 r4 : list entry)
    (T1 T2 T3 : datetime) (w : world) :
  parse (published e1) = Some T1 ->
  parse (published e2) = Some T2 ->
  parse (published e2') = Some T2 ->
  parse (published e3) = Some T3 ->
  (T1 < T2)%Z -> (T2 < T3)%Z ->
  last_seen w = None ->
  log_file w = Absent ->
  log_file (fst (poll_cycles parse strftime [e1 :: r1] w)) = Absent /\
  log_file (fst (poll_cycles parse strftime [e1 :: r1; e2 :: r2] w))
  = Holds (JArr [incident_record strftime e2 T2]) /\
  log_file (fst (poll_cycles parse strftime
                   [e1 :: r1; e2 :: r2; e2' :: r3] w))
  = Holds (JArr [incident_record strftime e2 T2]) /\
  poll_cycles parse strftime [e1 :: r1; e2 :: r2; e2' :: r3] w
  = poll_cycles parse strftime [e1 :: r1; e2 :: r2] w /\
  log_file (fst (poll_cycles parse strftime
                   [e1 :: r1; e2 :: r2; e2' :: r3; e3 :: r4] w))
  = Holds (JArr [incident_record strftime e2 T2;
                 incident_record strftime e3 T3]) /\
  snd (poll_cycles parse strftime
         [e1 :: r1; e2 :: r2; e2' :: r3; e3 :: r4] w) = Ok tt.
Proof.
  intros H1 H2 H2' H3 H12 H23 Hs Hf.
  destruct (cycle_init e1 r1 w T1 H1 Hs) as (Hs1 & Hf1 & Hok1).
  rewrite Hf in Hf1.
  set (w1 := fst (poll_cycle parse strftime (e1 :: r1) w)) in *.
  destruct (cycle_newer_ok e2 r2 w1 T2 T1 H2 Hs1 H12 (or_introl Hf1))
    as (Hok2 & Hs2 & Hf2).
  rewrite Hf1 in Hf2. cbn [stored app] in Hf2.
  set (w2 := fst (poll_cycle parse strftime (e2 :: r2) w1)) in *.
  pose proof (cycle_not_newer e2' r3 w2 T2 T2 H2' Hs2 (Z.le_refl _)) as Hc3.
  destruct (cycle_newer_ok e3 r4 w2 T3 T2 H3 Hs2 H23
              (or_intror (ex_intro _ _ Hf2))) as (Hok4 & Hs4 & Hf4).
  rewrite Hf2 in Hf4. cbn [stored app] in Hf4.
  rewrite !cycles_cons. fold w1. rewrite Hok1. fold w2. rewrite Hok2.
  rewrite Hc3. cbn [fst snd]. rewrite Hok4.
  unfold poll_cycles, ret. cbn [fst snd].
  repeat split; assumption.
Qed.

End PollerFacts.

(** C1. Four fetches whose newest entries are published at T1 < T2 = T2 <
    T3, run from a fresh start with no log file: nothing is stored after
    the first, one record after the second, still that one record after
    the third, and two records after the fourth. In general the records a
    run appends belong to newest entries with strictly increasing publish
    times, so there is at most one per time; and a newest entry published
    at exactly the last-seen time changes nothing. *)
Theorem feed_poller_dedup :
  forall (parse : string -> option datetime) (strftime : datetime -> string),
    (forall (e1 e2 e2' e3 : Poller.entry) (r1 r2 r3 r4 : list Poller.entry)
            (T1 T2 T3 : datetime),
       parse (Poller.published e1) = Some T1 ->
       parse (Poller.published e2) = Some T2 ->
       parse (Poller.published e2') = Some T2 ->
       parse (Poller.published e3) = Some T3 ->
       (T1 < T2)%Z -> (T2 < T3)%Z ->
       Poller.stored (Poller.log_file (fst (Poller.track_status parse strftime
          [e1 :: r1] (Poller.initial Poller.Absent)))) = [] /\
       Poller.stored (Poller.log_file (fst (Poller.track_status parse strftime
          [e1 :: r1; e2 :: r2] (Poller.initial Poller.Absent))))
       = [Poller.incident_record strftime e2 T2] /\
       Poller.stored (Poller.log_file (fst (Poller.track_status parse strftime
          [e1 :: r1; e2 :: r2; e2' :: r3] (Poller.initial Poller.Absent))))
       = [Poller.incident_record strftime e2 T2] /\
       Poller.stored (Poller.log_file (fst (Poller.track_status parse strftime
          [e1 :: r1; e2 :: r2; e2' :: r3; e3 :: r4]
          (Poller.initial Poller.Absent))))
       = [Poller.incident_record strftime e2 T2;
          Poller.incident_record strftime e3 T3] /\
       snd (Poller.track_status parse strftime
              [e1 :: r1; e2 :: r2; e2' :: r3; e3 :: r4]
              (Poller.initial Poller.Absent)) = Ok tt) /\
    (forall (fetches : list (list Poller.entry)) (w : Poller.world),
     exists fired : list (Poller.entry * datetime),
       Poller.stored
         (Poller.log_file (fst (Poller.poll_cycles parse strftime fetches w)))
       = (Poller.stored (Poller.log_file w)
          ++ map (fun p => Poller.incident_record strftime (fst p) (snd p))
                 fired)%list /\
       StronglySorted Z.lt (map snd fired) /\
       Forall (fun p => exists rest,
                   In (fst p :: rest) fetches /\
                   parse (Poller.published (fst p)) = Some (snd p)) fired /\
       (forall t0, Poller.last_seen w = Some t0 ->
                   Forall (fun p => (t0 < snd p)%Z) fired)) /\
    (forall (entries : list Poller.entry) (w : Poller.world) (t : datetime),
       Poller.last_seen w = Some t ->
       Poller.newest_time parse entries = Some t ->
       Poller.poll_cycle parse strftime entries w = (w, Ok tt)).
Proof.
  intros parse strftime. split; [| split].
  - intros e1 e2 e2' e3 r1 r2 r3 r4 T1 T2 T3 H1 H2 H2' H3 H12 H23.
    destruct (track_status_cycles parse strftime (Poller.initial Poller.Absent))
      as [out Hout].
    rewrite !Hout.
    destruct (cycles_scenario parse strftime e1 e2 e2' e3 r1 r2 r3 r4 T1 T2 T3
                (Poller.with_stdout (Poller.initial Poller.Absent) out)
                H1 H2 H2' H3 H12 H23 eq_refl eq_refl)
      as (Ha & Hb & Hc & _ & Hd & He).
    rewrite Ha, Hb, Hc, Hd, He. repeat split.
  - apply cycles_fired.
  - intros entries w t Hs Hn.
    destruct entries as [| e rest]; [discriminate |].
    simpl in Hn. apply (cycle_not_newer parse strftime e rest w t t Hn Hs).
    lia.
Qed.

Lemma feed_poller_dedup_witness :
  Poller.stored
    (Poller.log_file
       (fst (Poller.track_status sample_parse sample_strftime sample_fetches
               (Poller.initial Poller.Absent))))
  = [Poller.incident_record sample_strftime entry2 1762165800000000%Z;
     Poller.incident_record sample_strftime entry3 1762167600000000%Z].
Proof.
  apply (proj1 (feed_poller_dedup sample_parse sample_strftime)
           entry1 entry2 entry2 entry3 [] [entry1] [entry1] [entry2; entry1]
           1762164000000000%Z 1762165800000000%Z 1762167600000000%Z);
    try reflexivity; lia.
Defined.

Example sample_run_records :
  Poller.read_log
    (Poller.log_file
       (fst (Poller.track_status sample_parse sample_strftime sample_fetches
               (Poller.initial Poller.Absent))))
  = Some [ {| Poller.r_timestamp := "2025-11-03 10:30:00";
              Poller.r_product := "Batch API";
              Poller.r_event := "Batch job delays";
              Poller.r_status := "Investigating" |};
           {| Poller.r_timestamp := "2025-11-03 11:00:00";
              Poller.r_product := "Chat Completions API";
              Poller.r_event := "Chat Completions API latency";
              Poller.r_status :=
                "Investigating reports of elevated latency in gpt-4o responses" |} ].
Proof. vm_compute. reflexivity. Qed.

(** C10. Over any run of poll cycles the last-seen time never decreases:
    the value after a prefix of the run is at most the value after the
    whole run. Once set, one cycle either keeps it or replaces it by the
    strictly greater publish time of the newest entry; an empty fetch, and
    a newest entry that is not later, leave it as it was. *)
Theorem last_seen_monotone :
  forall (parse : string -> option datetime) (strftime : datetime -> string),
    (forall (a b : list (list Poller.entry)) (w : Poller.world),
       Poller.seen_le
         (Poller.last_seen (fst (Poller.poll_cycles parse strftime a w)))
         (Poller.last_seen
            (fst (Poller.poll_cycles parse strftime (a ++ b)%list w)))) /\
    (forall (entries : list Poller.entry) (w : Poller.world) (t0 : datetime),
       Poller.last_seen w = Some t0 ->
       Poller.last_seen (fst (Poller.poll_cycle parse strftime entries w))
       = Some t0 \/
       exists t1,
         Poller.newest_time parse entries = Some t1 /\ (t0 < t1)%Z /\
         Poller.last_seen (fst (Poller.poll_cycle parse strftime entries w))
         = Some t1) /\
    (forall w : Poller.world,
       Poller.last_seen (fst (Poller.poll_cycle parse strftime [] w))
       = Poller.last_seen w) /\
    (forall (entries : list Poller.entry) (w : Poller.world) (t t0 : datetime),
       Poller.last_seen w = Some t0 ->
       Poller.newest_time parse entries = Some t ->
       (t <= t0)%Z ->
       Poller.last_seen (fst (Poller.poll_cycle parse strftime entries w))
       = Some t0).
Proof.
  intros parse strftime. repeat split.
  - intros a b w. rewrite cycles_app.
    destruct (snd (Poller.poll_cycles parse strftime a w)).
    + apply cycles_monotone.
    + apply seen_le_refl.
  - intros entries w t0 Hs.
    destruct (cycle_spec parse strftime entries w)
      as [(_ & [Hs' | Hs']) | (e & r & t & t0' & He & Hp & Hs0 & Hlt & _ & Hs' & _)].
    + left. congruence.
    + congruence.
    + right. exists t. subst entries. simpl.
      rewrite Hs in Hs0. injection Hs0 as <-. auto.
  - intros entries w t t0 Hs Hn Hle.
    destruct entries as [| e rest]; [discriminate |].
    simpl in Hn.
    now rewrite (cycle_not_newer parse strftime e rest w t t0 Hn Hs Hle).
Qed.

Lemma last_seen_monotone_witness :
  Poller.last_seen
    (fst (Poller.poll_cycle sample_parse sample_strftime [entry1]
            (Poller.with_last_seen (Poller.initial Poller.Absent)
               1762165800000000%Z)))
  = Some 1762165800000000%Z.
Proof.
  apply (proj2 (proj2 (proj2 (last_seen_monotone sample_parse sample_strftime)))
           [entry1]
           (Poller.with_last_seen (Poller.initial Poller.Absent)
              1762165800000000%Z)
           1762164000000000%Z 1762165800000000%Z);
    try reflexivity; lia.
Defined.

(** * Further properties *)

(** ** Substring test and scoring *)

Lemma startswith_iff (kw text : string) :
  PyStr.startswith kw text = true <-> exists post, text = kw ++ post.
Proof.
  revert text. induction kw as [| a kw IH]; intros text; simpl.
  - split; [intros _; now exists text | reflexivity].
  - destruct text as [| b text].
    + split; [discriminate | intros [post H]; discriminate H].
    + rewrite andb_true_iff, Ascii.eqb_eq, IH. split.
      * intros [-> [post ->]]. now exists post.
      * intros [post H]. injection H as -> ->. split; [reflexivity | now exists post].
Qed.

Lemma contains_iff (kw text : string) :
  PyStr.contains kw text = true <-> exists pre post, text = pre ++ kw ++ post.
Proof.
  induction text as [| c text IH].
  - simpl. rewrite orb_false_r, startswith_iff. split.
    + intros [post H]. now exists "", post.
    + intros [pre [post H]]. destruct pre; [now exists post | discriminate H].
  - cbn [PyStr.contains]. rewrite orb_true_iff, startswith_iff, IH. split.
    + intros [[post H] | [pre [post H]]].
      * now exists "", post.
      * exists (String c pre), post. simpl. now rewrite H.
    + intros [pre [post H]]. destruct pre as [| c' pre].
      * left. now exists post.
      * right. injection H as _ H. now exists pre, post.
Qed.

Lemma lower_app (a b : string) :
  PyStr.lower (a ++ b) = PyStr.lower a ++ PyStr.lower b.
Proof. induction a as [| c a IH]; simpl; [reflexivity | now rewrite IH]. Qed.

Lemma string_app_assoc (a b c : string) : (a ++ b) ++ c = a ++ (b ++ c).
Proof. induction a as [| x a IH]; simpl; [reflexivity | now rewrite IH]. Qed.

Lemma contains_embedded (kw a t b : string) :
  PyStr.contains kw t = true -> PyStr.contains kw (a ++ t ++ b) = true.
Proof.
  rewrite !contains_iff. intros [pre [post ->]].
  exists (a ++ pre), (post ++ b). now rewrite !string_app_assoc.
Qed.

Lemma filter_length_le {A} (f g : A -> bool) (l : list A) :
  (forall x, f x = true -> g x = true) ->
  List.length (filter f l) <= List.length (filter g l).
Proof.
  intros Hfg. induction l as [| x l IH]; simpl; [lia |].
  destruct (f x) eqn:Ef.
  - rewrite (Hfg x Ef). simpl. lia.
  - destruct (g x); simpl; lia.
Qed.

(** X1. A keyword counts towards a score exactly when the lower-cased text
    can be cut into a part before it, the keyword itself and a part after
    it. *)
Theorem keyword_hit_iff_substring :
  forall (kw : string) (text : string),
    Classifier.score [kw] (PyStr.lower text) = 1
    <-> exists pre post, PyStr.lower text = pre ++ kw ++ post.
Proof.
  intros kw text. rewrite <- contains_iff. unfold Classifier.score. simpl.
  destruct (PyStr.contains kw (PyStr.lower text)); simpl; split;
    congruence || discriminate.
Qed.

(** X2. Surrounding a text with more text never lowers a score: the
    combined "name body" text of the webhook scores at least what the name
    alone and the body alone score. *)
Theorem score_of_embedded_text :
  forall (keywords : list string) (before text after : string),
    Classifier.score keywords (PyStr.lower text)
    <= Classifier.score keywords (PyStr.lower (before ++ text ++ after)).
Proof.
  intros keywords before text after. unfold Classifier.score.
  apply filter_length_le. intros kw H.
  rewrite !lower_app. now apply contains_embedded.
Qed.

(** ** What the classifier returns *)

Section ScanFacts.

Import Classifier.

Variable text_lower : string.

Lemma scan_range (items : keyword_table) :
  forall best_match best_score,
    In (scan items text_lower best_match best_score)
       (best_match :: map fst items).
Proof.
  induction items as [| [p kws] rest IH]; intros best_match best_score; simpl.
  - now left.
  - destruct (best_score <? score kws text_lower)%nat.
    + right. apply IH.
    + destruct (IH best_match best_score) as [H | H]; [now left | now right; right].
Qed.

(** The loop either keeps what it started with, nothing scoring more, or
    ends on the first item that reaches the highest score. *)
Lemma scan_cases (items : keyword_table) :
  forall best_match best_score,
    (Forall (fun item => score (snd item) text_lower <= best_score) items /\
     scan items text_lower best_match best_score = best_match)
    \/ (exists pre keywords post,
          items = (pre ++ (scan items text_lower best_match best_score, keywords)
                       :: post)%list /\
          best_score < score keywords text_lower /\
          Forall (fun item => score (snd item) text_lower
                              < score keywords text_lower) pre /\
          Forall (fun item => score (snd item) text_lower
                              <= score keywords text_lower) post).
Proof.
  induction items as [| [p kws] rest IH]; intros best_match best_score.
  - left. split; [constructor | reflexivity].
  - cbn [scan]. destruct (Nat.ltb_spec best_score (score kws text_lower)) as [Hlt | Hge].
    + destruct (IH p (score kws text_lower))
        as [(Hall & ->) | (pre & k & post & Hrest & Hk & Hpre & Hpost)].
      * right. exists [], kws, rest. repeat split; auto.
      * right. exists ((p, kws) :: pre), k, post.
        split; [simpl; now rewrite <- Hrest |].
        split; [lia |]. split; [| exact Hpost].
        constructor; [exact Hk | exact Hpre].
    + destruct (IH best_match best_score)
        as [(Hall & ->) | (pre & k & post & Hrest & Hk & Hpre & Hpost)].
      * left. split; [| reflexivity]. constructor; [exact Hge | exact Hall].
      * right. exists ((p, kws) :: pre), k, post.
        split; [simpl; now rewrite <- Hrest |].
        split; [exact Hk |]. split; [| exact Hpost].
        constructor; [simpl; lia | exact Hpre].
Qed.

End ScanFacts.

(** X3. The classifier returns the default label or one of the labels of
    the Keyword Table, never anything else. *)
Theorem detect_product_range :
  forall (default : string) (table : Classifier.keyword_table) (text : string),
    In (Classifier.detect_product_with default table text)
       (default :: map fst table).
Proof. intros. apply scan_range. Qed.

(** X4. The classifier returns the default label when every label scores
    0, and otherwise the first label of the table whose score is the
    highest: every label before it scores strictly less, every label after
    it scores at most as much, and its own score is positive. *)
Theorem detect_product_first_highest :
  forall (default : string) (table : Classifier.keyword_table) (text : string),
    (Forall (fun item => Classifier.score (snd item) (PyStr.lower text) = 0)
            table /\
     Classifier.detect_product_with default table text = default)
    \/ (exists pre keywords post,
          table = (pre ++ (Classifier.detect_product_with default table text,
                           keywords) :: post)%list /\
          0 < Classifier.score keywords (PyStr.lower text) /\
          Forall (fun item => Classifier.score (snd item) (PyStr.lower text)
                              < Classifier.score keywords (PyStr.lower text))
                 pre /\
          Forall (fun item => Classifier.score (snd item) (PyStr.lower text)
                              <= Classifier.score keywords (PyStr.lower text))
                 post).
Proof.
  intros default table text. unfold Classifier.detect_product_with.
  destruct (scan_cases (PyStr.lower text) table default 0) as [[Hall Hr] | H].
  - left. split; [| exact Hr].
    eapply Forall_impl; [| exact Hall]. simpl. intros; lia.
  - right. exact H.
Qed.

(** X5. When exactly one label of the table has triggers in the text,
    that label is returned, however many of its triggers occur. *)
Theorem detect_product_single_label :
  forall (default : string) (pre post : Classifier.keyword_table)
         (label : string) (keywords : list string) (text : string),
    0 < Classifier.score keywords (PyStr.lower text) ->
    Forall (fun item => Classifier.score (snd item) (PyStr.lower text) = 0)
           (pre ++ post)%list ->
    Classifier.detect_product_with default
      (pre ++ (label, keywords) :: post)%list text = label.
Proof.
  intros default pre post label keywords text Hpos Hzero.
  apply Forall_app in Hzero as [Hpre Hpost].
  unfold Classifier.detect_product_with.
  apply scan_first_max; [exact Hpos | |].
  - eapply Forall_impl; [| exact Hpre]. simpl. intros a Ha. rewrite Ha. exact Hpos.
  - eapply Forall_impl; [| exact Hpost]. simpl. intros a Ha. rewrite Ha. lia.
Qed.

Lemma detect_product_single_label_witness :
  StatusMonitor.detect_product "DALL-E image generation is degraded"
  = "Image Generation API".
Proof.
  apply (detect_product_single_label StatusMonitor.default_label
           (firstn 9 StatusMonitor.PRODUCT_KEYWORDS) []
           "Image Generation API" ["image"; "dall-e"]
           "DALL-E image generation is degraded").
  - vm_compute. lia.
  - repeat constructor.
Defined.

Lemma lower_ascii_idem (c : ascii) :
  PyStr.lower_ascii (PyStr.lower_ascii c) = PyStr.lower_ascii c.
Proof.
  destruct c as [[] [] [] [] [] [] [] []]; reflexivity.
Qed.

Lemma lower_idem (s : string) : PyStr.lower (PyStr.lower s) = PyStr.lower s.
Proof.
  induction s as [| c s IH]; simpl; [reflexivity |].
  now rewrite lower_ascii_idem, IH.
Qed.

(** X6. Classification ignores letter case: two texts that differ only in
    the case of their ASCII letters get the same label, and a text gets the
    label of its lower-cased form. *)
Theorem detect_product_ignores_case :
  forall (default : string) (table : Classifier.keyword_table)
         (text text' : string),
    (PyStr.lower text = PyStr.lower text' ->
     Classifier.detect_product_with default table text
     = Classifier.detect_product_with default table text') /\
    Classifier.detect_product_with default table (PyStr.lower text)
    = Classifier.detect_product_with default table text.
Proof.
  intros default table text text'. unfold Classifier.detect_product_with. split.
  - now intros ->.
  - now rewrite lower_idem.
Qed.

Lemma detect_product_ignores_case_witness :
  App.detect_product "WEBRTC drops" = App.detect_product "WebRTC Drops".
Proof.
  apply (proj1 (detect_product_ignores_case App.default_label
                  App.PRODUCT_KEYWORDS "WEBRTC drops" "WebRTC Drops")).
  reflexivity.
Defined.

(** ** Every request to the webhook *)

Section WebhookOutcomes.

Import Webhook.

Variable repr_nonstr : json -> string.
Variable strftime : datetime -> string.
Variable now : datetime.

Lemma index_last_not_http (v : json) (e : exc) :
  Py.index_last v = Raise e -> is_http e = false.
Proof.
  destruct v as [| | | | s | [| x l] |]; simpl; try (intros [= <-]; reflexivity).
  destruct (Py.last_char s); [discriminate | intros [= <-]; reflexivity].
Qed.

Lemma get_not_http (v : json) (k : string) (default : json) (e : exc) :
  Py.get v k default = Raise e -> is_http e = false.
Proof. destruct v; simpl; try discriminate; intros [= <-]; reflexivity. Qed.

(** The extraction raises only Python's own exceptions. *)
Lemma extract_not_http (incident : json) (e : exc) :
  extract_latest_update repr_nonstr incident = Raise e -> is_http e = false.
Proof.
  unfold extract_latest_update.
  destruct (Py.get incident "incident_updates" JNull) as [got | e0] eqn:Eg;
    [| intros [= <-]; exact (get_not_http _ _ _ _ Eg)].
  destruct (negb _).
  - destruct (Py.get incident "status" (JStr "unknown")) as [st | e0] eqn:Es;
      [discriminate | intros [= <-]; exact (get_not_http _ _ _ _ Es)].
  - destruct (Py.index_last _) as [latest | e0] eqn:Ei;
      [| intros [= <-]; exact (index_last_not_http _ _ Ei)].
    destruct (Py.get latest "body" JNull) as [body | e0] eqn:Eb;
      [| intros [= <-]; exact (get_not_http _ _ _ _ Eb)].
    destruct (Py.truthy body); [discriminate |].
    destruct (Py.get latest "status" (JStr "unknown")) as [st | e0] eqn:Es;
      [discriminate | intros [= <-]; exact (get_not_http _ _ _ _ Es)].
Qed.

Lemma capitalize_not_http (v : json) (e : exc) :
  Py.capitalize v = Raise e -> e = AttributeError /\ is_str v = false.
Proof. destruct v; simpl; try discriminate; intros [= <-]; auto. Qed.

Lemma status_description_not_http (d i s : json) (e : exc) :
  status_description d i s = Raise e -> is_http e = false.
Proof.
  unfold status_description.
  destruct (Py.truthy d); [discriminate |].
  destruct (Py.truthy i).
  - destruct (Py.capitalize i) as [c | e0] eqn:Ec.
    + cbv beta iota. destruct (Py.truthy _); [discriminate |].
      destruct (Py.capitalize s) as [c' | e1] eqn:Ec'; [discriminate |].
      intros [= <-]. now destruct (capitalize_not_http _ _ Ec') as [-> _].
    + intros [= <-]. now destruct (capitalize_not_http _ _ Ec) as [-> _].
  - cbv beta iota. change (Py.truthy JNull) with false. cbv beta iota.
    destruct (Py.capitalize s) as [c' | e1] eqn:Ec'; [discriminate |].
    intros [= <-]. now destruct (capitalize_not_http _ _ Ec') as [-> _].
Qed.

(** A payload that is not an object: [get] raises at once. *)
Lemma handle_non_object (p : json) (out : log_stream) :
  is_obj p = false ->
  handle_openai_status repr_nonstr strftime now (Some p) out
  = (out, Raise AttributeError).
Proof. destruct p; try discriminate; reflexivity. Qed.

(** A payload object with a truthy incident: one line is logged and the
    acknowledgment returned, or one of Python's own exceptions is raised
    with nothing logged. *)
Lemma handle_truthy_incident (d : list (string * json)) (out : log_stream) :
  Py.truthy (Py.field_or d "incident" JNull) = true ->
  (exists e, is_http e = false /\
             handle_openai_status repr_nonstr strftime now (Some (JObj d)) out
             = (out, Raise e))
  \/ (exists line,
        handle_openai_status repr_nonstr strftime now (Some (JObj d)) out
        = ((out ++ [line])%list, Ok (JObj [("ok", JBool true)]))).
Proof.
  intros Ht.
  unfold handle_openai_status, bind, lift, ret, raise, logger_info.
  cbv beta iota delta [Py.get]. rewrite Ht. cbv beta iota delta [negb].
  destruct (Py.field_or d "incident" JNull) as [| | | | | | di];
    try (left; exists AttributeError; split; reflexivity).
  destruct (Py.field_or d "page" (JObj [])) as [| | | | | | pd];
    try (left; exists AttributeError; split; reflexivity).
  destruct (extract_latest_update repr_nonstr (JObj di)) as [body | e] eqn:Ee.
  - destruct (status_description _ _ _) as [sd | e] eqn:Es.
    + right. eexists. reflexivity.
    + left. exists e. split; [exact (status_description_not_http _ _ _ _ Es) | reflexivity].
  - left. exists e. split; [exact (extract_not_http _ _ Ee) | reflexivity].
Qed.

Lemma respond_not_http (e : exc) :
  is_http e = false -> respond (Raise e) = server_error.
Proof. destruct e; try discriminate; reflexivity. Qed.

End WebhookOutcomes.

(** X7. Whatever is posted, the receiver gives one of four answers: the
    acknowledgment with exactly one line logged, or one of the two 400
    responses or a 500 with nothing logged. A line is never logged for a
    request that fails. *)
Theorem webhook_answers :
  forall (repr_nonstr : json -> string) (strftime : datetime -> string)
         (now : datetime) (request_json : option json),
    (exists line,
       Webhook.post repr_nonstr strftime now request_json
       = (acknowledgment, [line]))
    \/ Webhook.post repr_nonstr strftime now request_json
       = (bad_request "Invalid JSON", [])
    \/ Webhook.post repr_nonstr strftime now request_json
       = (bad_request "No incident object in payload", [])
    \/ Webhook.post repr_nonstr strftime now request_json
       = (server_error, []).
Proof.
  intros repr_nonstr strftime now [p |]; [| right; left; reflexivity].
  unfold Webhook.post.
  destruct (is_obj p) eqn:Ep.
  - destruct p as [| | | | | | d]; try discriminate.
    destruct (Py.truthy (Py.field_or d "incident" JNull)) eqn:Et.
    + destruct (handle_truthy_incident repr_nonstr strftime now d [] Et)
        as [(e & He & ->) | (line & ->)].
      * right; right; right. now rewrite (respond_not_http e He).
      * left. now exists line.
    + right; right; left. now rewrite handle_no_incident.
  - right; right; right. now rewrite handle_non_object.
Qed.

(** X8. The answer is a 400 exactly when the body does not decode or the
    payload is an object whose "incident" is missing or falsy. *)
Theorem webhook_400_iff :
  forall (repr_nonstr : json -> string) (strftime : datetime -> string)
         (now : datetime) (request_json : option json),
    Webhook.status (fst (Webhook.post repr_nonstr strftime now request_json))
    = 400%Z
    <-> (request_json = None \/
         exists d, request_json = Some (JObj d) /\
                   Py.truthy (Py.field_or d "incident" JNull) = false).
Proof.
  intros repr_nonstr strftime now [p |]; [| split; [now left | reflexivity]].
  unfold Webhook.post.
  destruct (is_obj p) eqn:Ep.
  - destruct p as [| | | | | | d]; try discriminate.
    destruct (Py.truthy (Py.field_or d "incident" JNull)) eqn:Et.
    + split.
      * destruct (handle_truthy_incident repr_nonstr strftime now d [] Et)
          as [(e & He & ->) | (line & ->)]; [| discriminate].
        rewrite (respond_not_http e He). discriminate.
      * intros [H | (d' & [= <-] & H)]; [discriminate | congruence].
    + rewrite handle_no_incident by exact Et.
      split; [intros _; right; now exists d | reflexivity].
  - rewrite handle_non_object by exact Ep. split; [discriminate |].
    intros [H | (d & [= ->] & _)]; discriminate.
Qed.

(** X9. A payload that decodes but is not an object, and a payload object
    whose "incident" is truthy but not an object, are answered with a 500
    and nothing is logged. *)
Theorem webhook_500_on_wrong_types :
  forall (repr_nonstr : json -> string) (strftime : datetime -> string)
         (now : datetime),
    (forall p, is_obj p = false ->
       Webhook.post repr_nonstr strftime now (Some p) = (server_error, [])) /\
    (forall d,
       Py.truthy (Py.field_or d "incident" JNull) = true ->
       is_obj (Py.field_or d "incident" JNull) = false ->
       Webhook.post repr_nonstr strftime now (Some (JObj d))
       = (server_error, [])).
Proof.
  intros repr_nonstr strftime now. split.
  - intros p Hp. unfold Webhook.post. now rewrite handle_non_object.
  - intros d Ht Ho. unfold Webhook.post.
    unfold Webhook.handle_openai_status, bind, lift, ret, raise.
    cbv beta iota delta [Py.get]. rewrite Ht. cbv beta iota delta [negb].
    destruct (Py.field_or d "incident" JNull); try discriminate; reflexivity.
Qed.

Lemma webhook_500_on_wrong_types_witness :
  Webhook.post sample_repr sample_strftime 0%Z (Some (JStr "incident"))
    = (server_error, []) /\
  Webhook.post sample_repr sample_strftime 0%Z
    (Some (JObj [("incident", JArr [JInt 1])]))
    = (server_error, []).
Proof.
  split.
  - apply (proj1 (webhook_500_on_wrong_types sample_repr sample_strftime 0%Z)).
    reflexivity.
  - apply (proj2 (webhook_500_on_wrong_types sample_repr sample_strftime 0%Z));
      reflexivity.
Defined.

(** ** The latest update and the status description, on any input *)

(** X10. Whenever the extraction returns, what it returns is truthy: a
    non-empty body, or the non-empty fallback string. *)
Theorem extract_latest_update_truthy :
  forall (repr_nonstr : json -> string) (incident v : json),
    Webhook.extract_latest_update repr_nonstr incident = Ok v ->
    Py.truthy v = true.
Proof.
  intros repr_nonstr incident v. unfold Webhook.extract_latest_update.
  destruct (Py.get incident "incident_updates" JNull) as [got |]; [| discriminate].
  destruct (negb _).
  - destruct (Py.get incident "status" (JStr "unknown")); [| discriminate].
    intros [= <-]. reflexivity.
  - destruct (Py.index_last _) as [latest |]; [| discriminate].
    destruct (Py.get latest "body" JNull) as [body |]; [| discriminate].
    destruct (Py.truthy body) eqn:Eb; [intros [= <-]; exact Eb |].
    destruct (Py.get latest "status" (JStr "unknown")); [| discriminate].
    intros [= <-]. reflexivity.
Qed.

Lemma extract_latest_update_truthy_witness :
  Py.truthy (JStr "Incident status: identified") = true.
Proof.
  apply (extract_latest_update_truthy sample_repr (JObj sample_incident_fields)
           (JStr "Incident status: identified")).
  reflexivity.
Defined.

(** X11. What the extraction raises on updates of the wrong type: a
    non-empty object gives KeyError, a non-zero number or true gives
    TypeError, a non-empty string gives AttributeError, and so does a
    non-empty list whose last element is not an object, or an incident that
    is not an object. *)
Theorem extract_latest_update_errors :
  forall (repr_nonstr : json -> string),
    (forall incident, is_obj incident = false ->
       Webhook.extract_latest_update repr_nonstr incident = Raise AttributeError) /\
    (forall d updates,
       Py.dict_lookup "incident_updates" d = Some updates ->
       Py.truthy updates = true ->
       Webhook.extract_latest_update repr_nonstr (JObj d)
       = match updates with
         | JObj _ => Raise KeyError
         | JInt _ | JFloat _ | JBool _ | JNull => Raise TypeError
         | JStr _ => Raise AttributeError
         | JArr l =>
             match List.last l JNull with
             | JObj u =>
                 Ok (if Py.truthy (Py.field_or u "body" JNull)
                     then Py.field_or u "body" JNull
                     else Webhook.fallback_status repr_nonstr
                            (Py.field_or u "status" (JStr "unknown")))
             | _ => Raise AttributeError
             end
         end).
Proof.
  intros repr_nonstr. split.
  - intros incident H. destruct incident; try discriminate; reflexivity.
  - intros d updates Hd Ht. unfold Webhook.extract_latest_update.
    cbv beta iota delta [Py.get].
    assert (E : Py.field_or d "incident_updates" JNull = updates)
      by (unfold Py.field_or; now rewrite Hd).
    rewrite E, Ht. cbv beta iota zeta delta [negb]. rewrite Ht.
    destruct updates as [| b | z | f | s | l | fs]; try discriminate; try reflexivity.
    + simpl. destruct s as [| c s]; [discriminate |].
      destruct (Py.last_char (String c s)) eqn:El; [reflexivity |].
      simpl in El. destruct s; [discriminate |].
      exfalso. revert El. generalize a s. clear.
      intros a s. revert a. induction s as [| b s IH]; intros a; simpl.
      * discriminate.
      * apply IH.
    + destruct l as [| x l]; [discriminate |].
      rewrite (last_cons_default l x JNull). cbn [Py.index_last].
      destruct (List.last l x); try reflexivity.
      cbv beta iota delta [Py.get].
      destruct (Py.truthy (Py.field_or fields "body" JNull)); reflexivity.
Qed.

Lemma extract_latest_update_errors_witness :
  Webhook.extract_latest_update sample_repr
    (JObj [("incident_updates", JObj [("body", JStr "text")])])
  = Raise KeyError.
Proof.
  apply (proj2 (extract_latest_update_errors sample_repr)
           [("incident_updates", JObj [("body", JStr "text")])]
           (JObj [("body", JStr "text")])); reflexivity.
Defined.

(** X12. Resolving the status description raises exactly when the page
    description is falsy and the value that is then capitalized is not a
    string: the impact if it is truthy, the incident status otherwise. What
    it raises is AttributeError; a truthy page description is returned
    without looking at the other two. *)
Theorem status_description_raises_iff :
  forall (page_status_desc impact incident_status : json) (e : exc),
    (Webhook.status_description page_status_desc impact incident_status
     = Raise e
     <-> e = AttributeError /\
         Py.truthy page_status_desc = false /\
         ((Py.truthy impact = true /\ is_str impact = false) \/
          (Py.truthy impact = false /\ is_str incident_status = false))) /\
    (Py.truthy page_status_desc = true ->
     Webhook.status_description page_status_desc impact incident_status
     = Ok page_status_desc).
Proof.
  intros d i s e. unfold Webhook.status_description. split.
  - destruct (Py.truthy d).
    + split; [discriminate | intros (_ & H & _); discriminate H].
    + destruct (Py.truthy i) eqn:Ei.
      * destruct (is_str i) eqn:Hi.
        -- destruct (capitalize_str i Hi) as [c ->]. cbv beta iota.
           rewrite truthy_impact_suffix.
           split; [discriminate |].
           intros (_ & _ & [[_ H] | [H _]]); discriminate H.
        -- rewrite (capitalize_non_str i Hi). split.
           ++ intros [= <-]. auto.
           ++ intros (-> & _). reflexivity.
      * cbv beta iota. change (Py.truthy JNull) with false. cbv beta iota.
        destruct (is_str s) eqn:Hs.
        -- destruct (capitalize_str s Hs) as [c ->].
           split; [discriminate |].
           intros (_ & _ & [[H _] | [_ H]]); discriminate H.
        -- rewrite (capitalize_non_str s Hs). split.
           ++ intros [= <-]. auto.
           ++ intros (-> & _). reflexivity.
  - now intros ->.
Qed.

Lemma status_description_raises_iff_witness :
  Webhook.status_description (JStr "Partial outage") (JInt 3) JNull
  = Ok (JStr "Partial outage").
Proof.
  apply (proj2 (status_description_raises_iff (JStr "Partial outage") (JInt 3)
                  JNull AttributeError)).
  reflexivity.
Defined.

Example null_status_is_500 :
  Webhook.post sample_repr sample_strftime 0%Z
    (Some (JObj [("incident", JObj [("name", JStr "Outage"); ("status", JNull)])]))
  = (server_error, []).
Proof. reflexivity. Qed.

(** ** The log store and the poller, beyond the scenario *)

Section PollerOutcomes.

Import Poller.

Variable parse : string -> option datetime.
Variable strftime : datetime -> string.










(** A cycle that returns leaves in [last_seen] the later of what it held
    and the newest publish time. *)
Lemma cycle_ok_seen (entries : list entry) (w : world) :
  snd (poll_cycle parse strftime entries w) = Ok tt ->
  last_seen (fst (poll_cycle parse strftime entries w))
  = match newest_time parse entries, last_seen w with
    | Some t, Some s => Some (Z.max s t)
    | Some t, None => Some t
    | None, _ => last_seen w
    end.
Proof.
  intros Hok. destruct entries as [| e rest].
  - destruct (cycle_empty parse strftime w) as (Hs & _). exact Hs.
  - cbn [newest_time].
    destruct (parse (published e)) as [t |] eqn:Ep.
    + destruct (last_seen w) as [t0 |] eqn:Es.
      * destruct (Z.lt_ge_cases t0 t) as [Hlt | Hge].
        -- destruct (cycle_newer parse strftime e rest w t t0 Ep Es Hlt)
             as [(_ & Hs & _) | ((x & Hx) & _)].
           ++ rewrite Hs. f_equal. lia.
           ++ rewrite Hx in Hok. discriminate Hok.
        -- rewrite (cycle_not_newer parse strftime e rest w t t0 Ep Es Hge).
           cbn [fst]. rewrite Es. f_equal. lia.
      * destruct (cycle_init parse strftime e rest w t Ep Es) as (Hs & _).
        exact Hs.
    + rewrite (cycle_unparsed parse strftime e rest w Ep) in Hok.
      discriminate Hok.
Qed.

Lemma with_stdout_twice (w : world) (a b : list string) :
  with_stdout (with_stdout w a) b = with_stdout w b.
Proof. reflexivity. Qed.



End PollerOutcomes.





(** X15. Whenever a run of poll cycles ends without an exception,
    [last_seen] holds the latest publish time among the newest entries the
    run has met, its earlier value included. *)
Theorem poller_runs_to_latest :
  forall (parse : string -> option datetime) (strftime : datetime -> string)
         (fetches : list (list Poller.entry)) (w : Poller.world),
    snd (Poller.poll_cycles parse strftime fetches w) = Ok tt ->
    Poller.last_seen (fst (Poller.poll_cycles parse strftime fetches w))
    = latest_seen parse (Poller.last_seen w) fetches.
Proof.
  intros parse strftime fetches. induction fetches as [| entries rest IH];
    intros w Hok; [reflexivity |].
  rewrite cycles_cons in Hok |- *.
  destruct (snd (Poller.poll_cycle parse strftime entries w)) as [[] | x] eqn:Ec;
    [| discriminate Hok].
  cbn [latest_seen]. rewrite <- (cycle_ok_seen parse strftime entries w Ec).
  now apply IH.
Qed.

Lemma poller_runs_to_latest_witness :
  Poller.last_seen
    (fst (Poller.poll_cycles sample_parse sample_strftime
            ([entry3] :: [] :: sample_fetches) (Poller.initial Poller.Absent)))
  = Some 1762167600000000%Z.
Proof.
  apply (poller_runs_to_latest sample_parse sample_strftime
           ([entry3] :: [] :: sample_fetches) (Poller.initial Poller.Absent)).
  reflexivity.
Defined.

(** X16. A newest entry whose publish time does not parse ends the run
    with ParserError: the state is the one the cycles before it left, and
    the fetches after it are never looked at. *)
Theorem poller_stops_on_bad_date :
  forall (parse : string -> option datetime) (strftime : datetime -> string)
         (before after : list (list Poller.entry)) (e : Poller.entry)
         (rest : list Poller.entry) (w : Poller.world),
    snd (Poller.poll_cycles parse strftime before w) = Ok tt ->
    parse (Poller.published e) = None ->
    Poller.poll_cycles parse strftime (before ++ (e :: rest) :: after)%list w
    = (fst (Poller.poll_cycles parse strftime before w), Raise ParserError).
Proof.
  intros parse strftime before after e rest w Hok Hp.
  rewrite cycles_app, Hok, cycles_cons.
  now rewrite (cycle_unparsed parse strftime e rest _ Hp).
Qed.

Lemma poller_stops_on_bad_date_witness :
  Poller.poll_cycles sample_parse sample_strftime
    ([[entry1]] ++ [entry_bad_date; entry1] :: [[entry2; entry1]])%list
    (Poller.initial Poller.Absent)
  = (fst (Poller.poll_cycles sample_parse sample_strftime [[entry1]]
            (Poller.initial Poller.Absent)),
     Raise ParserError).
Proof.
  apply (poller_stops_on_bad_date sample_parse sample_strftime
           [[entry1]] [[entry2; entry1]] entry_bad_date [entry1]
           (Poller.initial Poller.Absent)); reflexivity.
Defined.



(** X18. A run in which every fetch comes back empty prints one warning
    per fetch and changes nothing else: no baseline is set, nothing is
    stored, and the loop goes on. *)
Theorem empty_fetches_only_warn :
  forall (parse : string -> option datetime) (strftime : datetime -> string)
         (n : nat) (w : Poller.world),
    Poller.poll_cycles parse strftime (repeat [] n) w
    = (Poller.with_stdout w
         (Poller.stdout w ++ repeat "⚠ Feed empty, retrying..." n)%list,
       Ok tt).
Proof.
  intros parse strftime n. induction n as [| n IH]; intros w.
  - simpl. unfold ret, Poller.with_stdout. rewrite app_nil_r. now destruct w.
  - cbn [repeat]. rewrite cycles_cons. cbn [Poller.poll_cycle Poller.print fst snd].
    rewrite IH. cbn [Poller.with_stdout Poller.stdout Poller.last_seen Poller.log_file].
    unfold Poller.with_stdout. cbn [Poller.stdout Poller.last_seen Poller.log_file].
    now rewrite <- app_assoc.
Qed.

(** ** More on the webhook and the classifier *)

Lemma count_newlines_app (a b : string) :
  count_newlines (a ++ b) = count_newlines a + count_newlines b.
Proof.
  induction a as [| c a IH]; simpl; [reflexivity |]. rewrite IH. lia.
Qed.

(** X19. A log entry is the header line, the status line and a rule of 80
    dashes: it has exactly two line breaks besides those inside the
    time stamp, the product, the status description and the update body. *)
Theorem format_log_line_layout :
  forall (repr_nonstr : json -> string) (strftime : datetime -> string)
         (now : datetime) (product : string)
         (status_description latest_body : json),
    count_newlines
      (Webhook.format_log_line repr_nonstr strftime now product
         status_description latest_body)
    = 2 + count_newlines (strftime now) + count_newlines product
      + count_newlines (Webhook.fmt repr_nonstr status_description)
      + count_newlines (Webhook.fmt repr_nonstr latest_body) /\
    exists head,
      Webhook.format_log_line repr_nonstr strftime now product
        status_description latest_body
      = head ++ newline ++ rule80 /\
    String.length rule80 = 80.
Proof.
  intros repr_nonstr strftime now product sd body. split.
  - unfold Webhook.format_log_line. cbv zeta.
    rewrite !count_newlines_app.
    change (count_newlines newline) with 1.
    change (count_newlines rule80) with 0.
    change (count_newlines "[") with 0.
    change (count_newlines "] Product: ") with 0.
    change (count_newlines "Status: ") with 0.
    change (count_newlines " - ") with 0.
    lia.
  - eexists. split; [| reflexivity].
    unfold Webhook.format_log_line. cbv zeta.
    rewrite <- !string_app_assoc. reflexivity.
Qed.

Section WebhookFrame.

Import Webhook.

Variable repr_nonstr : json -> string.
Variable strftime : datetime -> string.

(** The handler only appends to the log stream, and what it appends and
    returns does not depend on what was logged before. *)
Lemma handle_frame (now : datetime) (request_json : option json)
    (out : log_stream) :
  handle_openai_status repr_nonstr strftime now request_json out
  = ((out ++ fst (handle_openai_status repr_nonstr strftime now request_json []))%list,
     snd (handle_openai_status repr_nonstr strftime now request_json [])).
Proof.
  destruct request_json as [p |]; [| simpl; now rewrite app_nil_r].
  destruct (is_obj p) eqn:Ep.
  - destruct p as [| | | | | | d]; try discriminate.
    destruct (Py.truthy (Py.field_or d "incident" JNull)) eqn:Et.
    + unfold handle_openai_status, bind, lift, ret, raise, logger_info.
      cbv beta iota delta [Py.get]. rewrite Et. cbv beta iota delta [negb].
      destruct (Py.field_or d "incident" JNull);
        try (cbn [fst snd]; now rewrite app_nil_r).
      destruct (Py.field_or d "page" (JObj []));
        try (cbn [fst snd]; now rewrite app_nil_r).
      destruct (extract_latest_update repr_nonstr _);
        [| cbn [fst snd]; now rewrite app_nil_r].
      destruct (status_description _ _ _);
        [reflexivity | cbn [fst snd]; now rewrite app_nil_r].
    + rewrite !handle_no_incident by exact Et. cbn [fst snd]. now rewrite app_nil_r.
  - rewrite !handle_non_object by exact Ep. cbn [fst snd]. now rewrite app_nil_r.
Qed.

End WebhookFrame.

(** X20. The receiver does not deduplicate: the same payload of the
    documented shape posted twice in a row leaves two entries on the log
    stream, after whatever was logged before. *)
Theorem webhook_no_dedup :
  forall (repr_nonstr : json -> string) (strftime : datetime -> string)
         (now1 now2 : datetime) (p : json) (out : Webhook.log_stream),
    Shape.payload_shape p = true ->
    exists product status_description latest_body,
      fst (Webhook.handle_openai_status repr_nonstr strftime now2 (Some p)
             (fst (Webhook.handle_openai_status repr_nonstr strftime now1
                     (Some p) out)))
      = (out ++ [ Webhook.format_log_line repr_nonstr strftime now1 product
                    status_description latest_body;
                  Webhook.format_log_line repr_nonstr strftime now2 product
                    status_description latest_body ])%list.
Proof.
  intros repr_nonstr strftime now1 now2 p out Hp.
  destruct (handle_shaped repr_nonstr strftime now1 p Hp)
    as (d & di & body & Ep & Ei & Eb & H1).
  destruct (handle_shaped repr_nonstr strftime now2 p Hp)
    as (d' & di' & body' & Ep' & Ei' & Eb' & H2).
  rewrite Ep in Ep'. injection Ep' as <-.
  rewrite Ei in Ei'. injection Ei' as <-.
  rewrite Eb in Eb'. injection Eb' as <-.
  do 3 eexists.
  rewrite (handle_frame repr_nonstr strftime now1 (Some p) out), H1.
  cbn [fst snd].
  rewrite (handle_frame repr_nonstr strftime now2 (Some p)), H2.
  cbn [fst snd]. rewrite <- app_assoc. reflexivity.
Qed.

Lemma webhook_no_dedup_witness :
  exists product status_description latest_body,
    fst (Webhook.handle_openai_status sample_repr sample_strftime 0%Z
           (Some sample_payload)
           (fst (Webhook.handle_openai_status sample_repr sample_strftime 0%Z
                   (Some sample_payload) [])))
    = ([] ++ [ Webhook.format_log_line sample_repr sample_strftime 0%Z product
                 status_description latest_body;
               Webhook.format_log_line sample_repr sample_strftime 0%Z product
                 status_description latest_body ])%list.
Proof.
  apply (webhook_no_dedup sample_repr sample_strftime 0%Z 0%Z sample_payload []).
  reflexivity.
Defined.

Lemma contains_empty_text (kw : string) :
  PyStr.nonempty kw = true -> PyStr.contains kw "" = false.
Proof. destruct kw; [discriminate | reflexivity]. Qed.

(** X21. The empty text is classified with the default label, provided no
    trigger of the table is the empty string, as is the case for both
    tables. *)
Theorem detect_product_empty_text :
  forall (default : string) (table : Classifier.keyword_table),
    triggers_nonempty table = true ->
    Classifier.detect_product_with default table "" = default.
Proof.
  intros default table H. unfold Classifier.detect_product_with.
  apply scan_keep. apply Forall_forall. intros item Hin.
  unfold triggers_nonempty in H. rewrite forallb_forall in H.
  specialize (H item Hin). rewrite forallb_forall in H.
  rewrite score_no_hit; [lia |].
  apply Forall_forall. intros kw Hkw. apply contains_empty_text. now apply H.
Qed.

Lemma detect_product_empty_text_witness :
  App.detect_product "" = App.default_label /\
  StatusMonitor.detect_product "" = StatusMonitor.default_label.
Proof.
  split.
  - apply (detect_product_empty_text App.default_label App.PRODUCT_KEYWORDS).
    reflexivity.
  - apply (detect_product_empty_text StatusMonitor.default_label
             StatusMonitor.PRODUCT_KEYWORDS).
    reflexivity.
Defined.
